(** * TechPulse news updater: a shallow embedding of [update_news.py]

    The script fetches articles per search query, merges them per category
    (dedup by URL, sort by [publishedAt] descending, keep six), renders one
    HTML card per article and writes the page.

    Python strings are modelled by [string], one [ascii] per character.
    An article is the JSON object of the API: each of its fields is a string,
    [null], or absent; [source] is an object, [null], or absent. *)

From Stdlib Require Import ZArith Lia Ascii.
From stdpp Require Import prelude strings gmap sorting pretty.

Local Open Scope string_scope.
Local Open Scope list_scope.
Local Open Scope Z_scope.

(** ** Python values, exceptions *)

(** The value [dict.get] hands back for an article field: [None] or a [str]. *)
Inductive pyval : Type :=
  | PyNone
  | PyStr (s : string).

(** A field of a JSON object: [None] when the key is absent. *)
Definition jfield : Type := option pyval.

(** [d.get(key, dflt)] *)
Definition get (f : jfield) (dflt : pyval) : pyval :=
  match f with
  | Some v => v
  | None => dflt
  end.

Inductive exn : Type :=
  | TypeError
  | AttributeError.

Inductive result (A : Type) : Type :=
  | Ok (a : A)
  | Raise (e : exn).
Arguments Ok {A} a.
Arguments Raise {A} e.

(** Truth value of a Python object: [None] and [""] are falsy. *)
Definition truthy (v : pyval) : bool :=
  match v with
  | PyNone => false
  | PyStr s => negb (String.eqb s EmptyString)
  end.

(** [a or b] *)
Definition py_or (a b : pyval) : pyval := if truthy a then a else b.

(** ** Articles *)

Inductive jsource : Type :=
  | SrcAbsent
  | SrcNull
  | SrcObj (name : jfield).

Record article : Type := Article {
  title : jfield;
  url : jfield;
  source : jsource;
  publishedAt : jfield;
  description : jfield
}.

(** ** String helpers standing for the [str] methods the script calls *)

Definition dq : string := String (Ascii.ascii_of_nat 34) EmptyString.
Definition nl : string := String (Ascii.ascii_of_nat 10) EmptyString.

(** [sep in s] *)
Fixpoint contains (sep s : string) : bool :=
  String.prefix sep s ||
  match s with
  | EmptyString => false
  | String _ s' => contains sep s'
  end.

(** [s.rsplit(sep, 1)[0]] when [sep] occurs in [s]: the text before its
    rightmost occurrence. *)
Fixpoint rsplit_head (sep s : string) : option string :=
  match s with
  | EmptyString => None
  | String c s' =>
      match rsplit_head sep s' with
      | Some hd => Some (String c hd)
      | None => if String.prefix sep s then Some EmptyString else None
      end
  end.

(** [s.rsplit(sep, 1)[0]] *)
Definition rsplit1_head (sep s : string) : string :=
  match rsplit_head sep s with
  | Some hd => hd
  | None => s
  end.

(** [s[:n]] *)
Fixpoint take_str (n : nat) (s : string) : string :=
  match n, s with
  | O, _ => EmptyString
  | _, EmptyString => EmptyString
  | S n', String c s' => String c (take_str n' s')
  end.

(** [html.escape(s)] with its default [quote=True], character by character. *)
Definition escape_char (c : ascii) : string :=
  if Ascii.eqb c "&" then "&amp;"
  else if Ascii.eqb c "<" then "&lt;"
  else if Ascii.eqb c ">" then "&gt;"
  else if Ascii.eqb c (Ascii.ascii_of_nat 34) then "&quot;"
  else if Ascii.eqb c (Ascii.ascii_of_nat 39) then "&#x27;"
  else String c EmptyString.

Fixpoint escape_str (s : string) : string :=
  match s with
  | EmptyString => EmptyString
  | String c s' => escape_char c +:+ escape_str s'
  end.

(** [escape] applied to a Python value: [None] has no [replace]. *)
Definition escape (v : pyval) : result string :=
  match v with
  | PyStr s => Ok (escape_str s)
  | PyNone => Raise AttributeError
  end.

(** ** Category aggregator: [fetch_category_news] *)

(** [a < b] on sort keys; [None] supports no ordering. *)
Definition py_lt (a b : pyval) : result bool :=
  match a, b with
  | PyStr s, PyStr t => Ok (String.ltb s t)
  | _, _ => Raise TypeError
  end.

(** The inner loop body over one article (lines 78-81). *)
Definition visit (st : list article * gset string) (a : article)
  : list article * gset string :=
  let '(all_articles, seen_urls) := st in
  let u := get (url a) (PyStr EmptyString) in
  match u with
  | PyStr s =>
      if truthy u && negb (bool_decide (s ∈ seen_urls))
      then (all_articles ++ [a], {[ s ]} ∪ seen_urls)
      else st
  | PyNone => st
  end.

(** Both loops, over the per-query results in fetch order. *)
Definition accumulate (fetched : list (list article)) : list article * gset string :=
  foldl (fun st articles => foldl visit st articles) ([], ∅) fetched.

Definition sort_key (a : article) : pyval := get (publishedAt a) (PyStr EmptyString).

(** [list.sort(key=..., reverse=True)]: a stable sort into descending key
    order, using only [<] on keys. [x] stood before every element of [l]. *)
Fixpoint insert_desc (x : article) (l : list article) : result (list article) :=
  match l with
  | [] => Ok [x]
  | y :: l' =>
      match py_lt (sort_key x) (sort_key y) with
      | Raise e => Raise e
      | Ok true =>
          match insert_desc x l' with
          | Ok r => Ok (y :: r)
          | Raise e => Raise e
          end
      | Ok false => Ok (x :: l)
      end
  end.

Fixpoint sort_desc (l : list article) : result (list article) :=
  match l with
  | [] => Ok []
  | x :: l' =>
      match sort_desc l' with
      | Ok r => insert_desc x r
      | Raise e => Raise e
      end
  end.

(** Lines 83-85 on the accumulated list. *)
Definition top6 (all_articles : list article) : result (list article) :=
  match sort_desc all_articles with
  | Ok r => Ok (take 6 r)
  | Raise e => Raise e
  end.

(** The aggregator as a function of what the queries returned. *)
Definition aggregate (fetched : list (list article)) : result (list article) :=
  top6 (fst (accumulate fetched)).

(** The text of a value, [None] read as the empty text. *)
Definition text_of (v : pyval) : string :=
  match v with
  | PyStr s => s
  | PyNone => EmptyString
  end.

Definition url_text (a : article) : string := text_of (get (url a) (PyStr EmptyString)).
Definition key_text (a : article) : string := text_of (sort_key a).

(** The timestamp of the article is a string when the key is present. *)
Definition timestamp_is_text (a : article) : Prop := publishedAt a <> Some PyNone.

Global Instance pyval_eq_dec : EqDecision pyval.
Proof. solve_decision. Defined.

(** Descending key order between two articles: [b] may follow [a]. *)
Definition key_ge (a b : article) : Prop := String.leb (key_text b) (key_text a) = true.

(** What the loop keeps true of the accumulated list and the seen set. *)
Definition acc_inv (st : list article * gset string) : Prop :=
  NoDup (url_text <$> st.1) /\
  forall a, a ∈ st.1 -> truthy (get (url a) (PyStr EmptyString)) = true /\ url_text a ∈ st.2.

(** ** The outside world: console, network, clock, output file *)

(** What [urlopen] followed by [json.loads] comes to. *)
Inductive failure : Type :=
  | NetworkError
  | Timeout
  | BadStatus (code : Z)
  | MalformedJSON.

Inductive json_body : Type :=
  | JObject (articles : option (list article))
  | NotAnObject (tyname : string).

Inductive http_outcome : Type :=
  | Failed (kind : failure) (msg : string)
  | Body (data : json_body).

Record request : Type := Request {
  req_query : string;
  req_page_size : Z;
  req_api_key : string
}.

Record world : Type := World {
  stdout : list string;
  requests : list request;
  output_file : option string;
  clock_reads : nat
}.

Definition world0 : world := World [] [] None 0.

(** Computations that print, call the network, read the clock, write the
    file, and may raise. An exception keeps the effects done before it. *)
Definition M (A : Type) : Type := world -> result A * world.

Global Instance M_ret : MRet M := fun A a w => (Ok a, w).
Global Instance M_bind : MBind M := fun A B f m w =>
  match m w with
  | (Ok a, w') => f a w'
  | (Raise e, w') => (Raise e, w')
  end.

Definition lift {A : Type} (r : result A) : M A := fun w => (r, w).

Definition print (line : string) : M unit := fun w =>
  (Ok tt, World (stdout w ++ [line]) (requests w) (output_file w) (clock_reads w)).

Definition write_file (content : string) : M unit := fun w =>
  (Ok tt, World (stdout w) (requests w) (Some content) (clock_reads w)).

(** ** Dates: the part of [datetime] the script uses *)

(** Calendar fields of a [datetime]. *)
Record civil : Type := Civil {
  year : Z;
  month : Z;
  day : Z;
  hour : Z;
  minute : Z;
  second : Z;
  microsecond : Z
}.

(** A parsed timestamp: its fields and its zone, [None] when naive,
    else the offset from UTC in seconds. *)
Record datetime : Type := Datetime {
  fields : civil;
  tzinfo : option Z
}.

Record timedelta : Type := Timedelta {
  days : Z;
  seconds : Z;
  microseconds : Z
}.

Definition is_leap (y : Z) : bool :=
  (y mod 4 =? 0) && (negb (y mod 100 =? 0) || (y mod 400 =? 0)).

Definition days_before_year (y : Z) : Z :=
  let y' := y - 1 in y' * 365 + y' / 4 - y' / 100 + y' / 400.

Definition days_in_month (y m : Z) : Z :=
  if m =? 2 then (if is_leap y then 29 else 28)
  else if (m =? 4) || (m =? 6) || (m =? 9) || (m =? 11) then 30
  else 31.

Definition days_before_month (y m : Z) : Z :=
  foldr Z.add 0 (map (days_in_month y) (map Z.of_nat (seq 1 (Z.to_nat (m - 1))))).

(** Proleptic Gregorian ordinal, 0001-01-01 being day 1. *)
Definition ymd2ord (y m d : Z) : Z :=
  days_before_year y + days_before_month y m + d.

(** Position of the fields on their own time line, in microseconds. *)
Definition civil_us (c : civil) : Z :=
  (((ymd2ord (year c) (month c) (day c) * 24 + hour c) * 60 + minute c) * 60
   + second c) * 1000000 + microsecond c.

(** A [timedelta] is kept normalised: [0 <= seconds < 86400] and
    [0 <= microseconds < 1000000], the sign carried by [days]. *)
Definition timedelta_of_us (us : Z) : timedelta :=
  Timedelta (us / 86400000000) (us mod 86400000000 / 1000000) (us mod 1000000).

(** [now - dt], both in the zone of [dt]: the fields are subtracted. *)
Definition datetime_sub (now : civil) (dt : datetime) : timedelta :=
  timedelta_of_us (civil_us now - civil_us (fields dt)).

Definition month_abbr (m : Z) : string :=
  nth (Z.to_nat (m - 1))
    ["Jan"; "Feb"; "Mar"; "Apr"; "May"; "Jun"; "Jul"; "Aug"; "Sep"; "Oct"; "Nov"; "Dec"]
    EmptyString.

Definition month_name (m : Z) : string :=
  nth (Z.to_nat (m - 1))
    ["January"; "February"; "March"; "April"; "May"; "June"; "July"; "August";
     "September"; "October"; "November"; "December"]
    EmptyString.

(** [str(n)] *)
Definition str_of_int (n : Z) : string := pretty n.

Definition pad2 (n : Z) : string :=
  if n <? 10 then "0" +:+ str_of_int n else str_of_int n.

(** [strftime("%b %d")], [strftime("%B %d, %Y")], [strftime("%Y-%m-%d %H:%M:%S")] *)
Definition strftime_b_d (c : civil) : string :=
  month_abbr (month c) +:+ " " +:+ pad2 (day c).

Definition strftime_B_d_Y (c : civil) : string :=
  month_name (month c) +:+ " " +:+ pad2 (day c) +:+ ", " +:+ str_of_int (year c).

Definition strftime_stamp (c : civil) : string :=
  str_of_int (year c) +:+ "-" +:+ pad2 (month c) +:+ "-" +:+ pad2 (day c) +:+ " "
  +:+ pad2 (hour c) +:+ ":" +:+ pad2 (minute c) +:+ ":" +:+ pad2 (second c).

(** [s.replace("Z", "+00:00")] *)
Fixpoint replace_Z (s : string) : string :=
  match s with
  | EmptyString => EmptyString
  | String c s' =>
      (if Ascii.eqb c "Z" then "+00:00" else String c EmptyString) +:+ replace_Z s'
  end.

Section Program.

(** The server's answer to the [n]-th request of the run. *)
Variable server : nat -> request -> http_outcome.

(** [datetime.fromisoformat]: [None] when it raises [ValueError]. *)
Variable fromisoformat : string -> option datetime.

(** The fields of [datetime.now(tz)] at the [n]-th reading of the clock. *)
Variable clock : nat -> option Z -> civil.

(** The directory of the script, the content of [.newsapi_key] when the
    file exists, and [NEWSAPI_KEY] when it is set. *)
Variable SCRIPT_DIR : string.
Variable key_file : option string.
Variable environ_key : option string.

(** Lines 61-63: one GET, recorded, answered by the server. *)
Definition urlopen_json (r : request) : M http_outcome := fun w =>
  (Ok (server (length (requests w)) r),
   World (stdout w) (requests w ++ [r]) (output_file w) (clock_reads w)).

Definition error_line (query msg : string) : string :=
  "Error fetching news for '" +:+ query +:+ "': " +:+ msg.

Definition fetch_news (query api_key : string) (page_size : Z) : M (list article) :=
  outcome ← urlopen_json (Request query page_size api_key);
  match outcome with
  | Body (JObject (Some arts)) => mret arts
  | Body (JObject None) => mret []
  | Body (NotAnObject ty) =>
      _ ← print (error_line query ("'" +:+ ty +:+ "' object has no attribute 'get'"));
      mret []
  | Failed _ msg =>
      _ ← print (error_line query msg);
      mret []
  end.

(** The loop of lines 75-81. *)
Fixpoint fetch_queries (category_queries : list string) (api_key : string)
    (st : list article * gset string) : M (list article * gset string) :=
  match category_queries with
  | [] => mret st
  | query :: rest =>
      arts ← fetch_news query api_key 4;
      fetch_queries rest api_key (foldl visit st arts)
  end.

Definition fetch_category_news (category_queries : list string) (api_key : string)
  : M (list article) :=
  st ← fetch_queries category_queries api_key ([], ∅);
  lift (top6 (fst st)).



(** *** [format_date] *)

Definition datetime_now (tz : option Z) : M civil := fun w =>
  (Ok (clock (clock_reads w) tz),
   World (stdout w) (requests w) (output_file w) (S (clock_reads w))).

(** Lines 95-105. *)
Definition relative_label (diff : timedelta) (dt : datetime) : string :=
  if days diff =? 0 then
    let hours := seconds diff / 3600 in
    if hours =? 0 then "Just now" else str_of_int hours +:+ "h ago"
  else if days diff =? 1 then "Yesterday"
  else if days diff <? 7 then str_of_int (days diff) +:+ " days ago"
  else strftime_b_d (fields dt).

(** The bare [except] turns [None.replace] and a failed parse into [""]. *)
Definition format_date (iso_date : pyval) : M string :=
  match iso_date with
  | PyNone => mret EmptyString
  | PyStr s =>
      match fromisoformat (replace_Z s) with
      | None => mret EmptyString
      | Some dt =>
          now ← datetime_now (tzinfo dt);
          mret (relative_label (datetime_sub now dt) dt)
      end
  end.

(** *** [generate_story_html] *)

(** Lines 112-115. *)
Definition story_title (a : article) : result string :=
  match escape (py_or (get (title a) (PyStr "Untitled")) (PyStr "Untitled")) with
  | Ok t => Ok (if contains " - " t then rsplit1_head " - " t else t)
  | Raise e => Raise e
  end.

(** Line 117. *)
Definition story_url (a : article) : result string :=
  escape (get (url a) (PyStr "#")).

(** Line 118: [article.get("source", {}).get("name", "Unknown")], escaped. *)
Definition story_source (a : article) : result string :=
  match source a with
  | SrcAbsent => escape (PyStr "Unknown")
  | SrcNull => Raise AttributeError
  | SrcObj name => escape (get name (PyStr "Unknown"))
  end.

(** Lines 120-124. *)
Definition story_excerpt (a : article) : result string :=
  match escape (py_or (get (description a) (PyStr EmptyString)) (PyStr EmptyString)) with
  | Ok d =>
      Ok (if 150 <? Z.of_nat (String.length d)
          then take_str 147 d +:+ "..."
          else d)
  | Raise e => Raise e
  end.

(** The card of lines 128-135. *)
Definition card (url css_class title source date description : string) : string :=
  String.concat nl [
    ("                <a href=" +:+ dq +:+ url +:+ dq +:+ " class=" +:+ dq +:+ css_class
       +:+ dq +:+ " target=" +:+ dq +:+ "_blank" +:+ dq +:+ ">");
    ("                    <h3 class=" +:+ dq +:+ "story-title" +:+ dq +:+ ">" +:+ title +:+ "</h3>");
    ("                    <div class=" +:+ dq +:+ "story-meta" +:+ dq +:+ ">");
    ("                        <span class=" +:+ dq +:+ "story-source" +:+ dq +:+ ">" +:+ source
       +:+ "</span>");
    ("                        <span>" +:+ date +:+ "</span>");
    "                    </div>";
    ("                    <p class=" +:+ dq +:+ "story-excerpt" +:+ dq +:+ ">" +:+ description
       +:+ "</p>");
    "                </a>"
  ].

Definition generate_story_html (a : article) (featured : bool) : M string :=
  t ← lift (story_title a);
  u ← lift (story_url a);
  src ← lift (story_source a);
  date ← format_date (get (publishedAt a) (PyStr EmptyString));
  d ← lift (story_excerpt a);
  let css_class := if featured then "story featured" else "story" in
  mret (card u css_class t src date d).

(** *** [generate_html] *)

Definition page_part0 : string :=
  String.concat nl [
    "<!DOCTYPE html>";
    ("<html lang=" +:+ dq +:+ "en" +:+ dq +:+ ">");
    "<head>";
    ("    <meta charset=" +:+ dq +:+ "UTF-8" +:+ dq +:+ ">");
    ("    <meta name=" +:+ dq +:+ "viewport" +:+ dq +:+ " content=" +:+ dq +:+ "width=device-width, initial-scale=1.0" +:+ dq +:+ ">");
    "    <title>Tech Pulse | AI • Dev Tools • Industry</title>";
    "    <style>";
    "        :root {";
    "            --bg: #fafafa;";
    "            --card: #ffffff;";
    "            --text: #1a1a1a;";
    "            --muted: #666;";
    "            --accent: #2563eb;";
    "            --border: #e5e5e5;";
    "        }";
    "        ";
    "        * {";
    "            margin: 0;";
    "            padding: 0;";
    "            box-sizing: border-box;";
    "        }";
    "        ";
    "        body {";
    "            font-family: -apple-system, BlinkMacSystemFont, 'Segoe UI', Roboto, sans-serif;";
    "            background: var(--bg);";
    "            color: var(--text);";
    "            line-height: 1.6;";
    "        }";
    "        ";
    "        header {";
    "            background: var(--card);";
    "            border-bottom: 1px solid var(--border);";
    "            padding: 1.5rem 2rem;";
    "            position: sticky;";
    "            top: 0;";
    "            z-index: 100;";
    "        }";
    "        ";
    "        .header-content {";
    "            max-width: 1200px;";
    "            margin: 0 auto;";
    "            display: flex;";
    "            justify-content: space-between;";
    "            align-items: center;";
    "        }";
    "        ";
    "        .logo {";
    "            font-size: 1.5rem;";
    "            font-weight: 700;";
    "            color: var(--text);";
    "            text-decoration: none;";
    "        }";
    "        ";
    "        .logo span {";
    "            color: var(--accent);";
    "        }";
    "        ";
    "        .date {";
    "            color: var(--muted);";
    "            font-size: 0.875rem;";
    "        }";
    "        ";
    "        main {";
    "            max-width: 1200px;";
    "            margin: 0 auto;";
    "            padding: 2rem;";
    "        }";
    "        ";
    "        .section {";
    "            margin-bottom: 3rem;";
    "        }";
    "        ";
    "        .section-title {";
    "            font-size: 0.75rem;";
    "            text-transform: uppercase;";
    "            letter-spacing: 0.1em;";
    "            color: var(--accent);";
    "            margin-bottom: 1rem;";
    "            font-weight: 600;";
    "        }";
    "        ";
    "        .stories {";
    "            display: grid;";
    "            gap: 1rem;";
    "        }";
    "        ";
    "        .story {";
    "            background: var(--card);";
    "            border: 1px solid var(--border);";
    "            border-radius: 8px;";
    "            padding: 1.25rem;";
    "            text-decoration: none;";
    "            color: inherit;";
    "            transition: box-shadow 0.2s, transform 0.2s;";
    "        }";
    "        ";
    "        .story:hover {";
    "            box-shadow: 0 4px 12px rgba(0,0,0,0.08);";
    "            transform: translateY(-2px);";
    "        }";
    "        ";
    "        .story-title {";
    "            font-size: 1.1rem;";
    "            font-weight: 600;";
    "            margin-bottom: 0.5rem;";
    "            color: var(--text);";
    "        }";
    "        ";
    "        .story-meta {";
    "            display: flex;";
    "            gap: 1rem;";
    "            font-size: 0.8rem;";
    "            color: var(--muted);";
    "        }";
    "        ";
    "        .story-source {";
    "            font-weight: 500;";
    "        }";
    "        ";
    "        .story-excerpt {";
    "            margin-top: 0.75rem;";
    "            font-size: 0.9rem;";
    "            color: var(--muted);";
    "        }";
    "        ";
    "        .featured {";
    "            grid-column: 1 / -1;";
    "            background: linear-gradient(135deg, #1e3a8a 0%, #3b82f6 100%);";
    "            color: white;";
    "        }";
    "        ";
    "        .featured .story-title {";
    "            color: white;";
    "            font-size: 1.4rem;";
    "        }";
    "        ";
    "        .featured .story-meta,";
    "        .featured .story-excerpt {";
    "            color: rgba(255,255,255,0.85);";
    "        }";
    "        ";
    "        @media (min-width: 768px) {";
    "            .stories {";
    "                grid-template-columns: repeat(2, 1fr);";
    "            }";
    "        }";
    "        ";
    "        @media (min-width: 1024px) {";
    "            .stories {";
    "                grid-template-columns: repeat(3, 1fr);";
    "            }";
    "        }";
    "        ";
    "        footer {";
    "            text-align: center;";
    "            padding: 2rem;";
    "            color: var(--muted);";
    "            font-size: 0.875rem;";
    "            border-top: 1px solid var(--border);";
    "        }";
    "    </style>";
    "</head>";
    "<body>";
    "    <header>";
    ("        <div class=" +:+ dq +:+ "header-content" +:+ dq +:+ ">");
    ("            <a href=" +:+ dq +:+ "#" +:+ dq +:+ " class=" +:+ dq +:+ "logo" +:+ dq +:+ ">Tech<span>Pulse</span></a>");
    ("            <span class=" +:+ dq +:+ "date" +:+ dq +:+ ">")
  ].

Definition page_part1 : string :=
  String.concat nl [
    "</span>";
    "        </div>";
    "    </header>";
    "    ";
    "    <main>"
  ].

Definition page_part2 : string :=
  String.concat nl [
    EmptyString;
    "    </main>";
    "    ";
    "    <footer>";
    "        <p>Curated tech news • Updated "
  ].

Definition page_part3 : string :=
  String.concat nl [
    "</p>";
    "    </footer>";
    "</body>";
    "</html>";
    EmptyString
  ].

(** The generator of lines 147-150, consumed by [join] in index order. *)
Fixpoint render_cards (i : nat) (articles : list article) : M (list string) :=
  match articles with
  | [] => mret []
  | a :: rest =>
      c ← generate_story_html a (Nat.eqb i 0);
      cs ← render_cards (S i) rest;
      mret (c :: cs)
  end.

Definition section_html (category stories_html : string) : string :=
  String.concat nl [
    EmptyString;
    ("        <section class=" +:+ dq +:+ "section" +:+ dq +:+ ">");
    ("            <h2 class=" +:+ dq +:+ "section-title" +:+ dq +:+ ">" +:+ category +:+ "</h2>");
    ("            <div class=" +:+ dq +:+ "stories" +:+ dq +:+ ">");
    stories_html;
    "            </div>";
    "        </section>";
    EmptyString
  ].

Fixpoint render_sections (news_by_category : list (string * list article))
    (sections_html : string) : M string :=
  match news_by_category with
  | [] => mret sections_html
  | (category, articles) :: rest =>
      match articles with
      | [] => render_sections rest sections_html
      | _ =>
          cards ← render_cards 0 articles;
          render_sections rest
            (sections_html +:+ section_html category (String.concat nl cards))
      end
  end.

Definition generate_html (news_by_category : list (string * list article)) : M string :=
  now ← datetime_now None;
  let today := strftime_B_d_Y now in
  sections_html ← render_sections news_by_category EmptyString;
  mret (page_part0 +:+ today +:+ page_part1 +:+ sections_html +:+ page_part2
        +:+ today +:+ page_part3).

(** *** Configuration, credential, [main] *)

Definition CATEGORIES : list (string * list string) :=
  [ ("Artificial Intelligence",
     ["artificial intelligence"; "OpenAI OR Anthropic OR DeepMind";
      "large language model OR LLM"]);
    ("Developer Tools",
     ["developer tools OR IDE"; "GitHub OR VS Code OR programming";
      "software development"]);
    ("Tech Industry",
     ["tech industry"; "Apple OR Google OR Microsoft OR Meta";
      "startup funding OR tech stocks"]) ].

(** [os.path.join(a, b)] for a relative [b]. *)
Definition path_join (a b : string) : string :=
  if String.eqb a EmptyString then b
  else if String.eqb (String.substring (String.length a - 1) 1 a) "/" then a +:+ b
  else a +:+ "/" +:+ b.

Definition OUTPUT_FILE : string := path_join SCRIPT_DIR "index.html".
Definition API_KEY_FILE : string := path_join SCRIPT_DIR ".newsapi_key".

(** [str.isspace] on one character. *)
Definition is_space (c : ascii) : bool :=
  let n := Z.of_nat (nat_of_ascii c) in
  ((9 <=? n) && (n <=? 13)) || ((28 <=? n) && (n <=? 32)) || (n =? 133) || (n =? 160).

Fixpoint lstrip (s : string) : string :=
  match s with
  | EmptyString => EmptyString
  | String c s' => if is_space c then lstrip s' else s
  end.

(** [s.strip()] *)
Definition strip (s : string) : string :=
  String.rev (lstrip (String.rev (lstrip s))).

Definition get_api_key : string :=
  match key_file with
  | Some content => strip content
  | None => default EmptyString environ_key
  end.

(** [d[k] = v] on an insertion-ordered dict. *)
Fixpoint dict_set {V : Type} (d : list (string * V)) (k : string) (v : V)
  : list (string * V) :=
  match d with
  | [] => [(k, v)]
  | (k', v') :: d' =>
      if String.eqb k' k then (k, v) :: d' else (k', v') :: dict_set d' k v
  end.

(** The loop of lines 355-357. *)
Fixpoint fetch_categories (categories : list (string * list string)) (api_key : string)
    (news_by_category : list (string * list article))
  : M (list (string * list article)) :=
  match categories with
  | [] => mret news_by_category
  | (category, queries) :: rest =>
      _ ← print ("  Fetching " +:+ category +:+ "...");
      arts ← fetch_category_news queries api_key;
      fetch_categories rest api_key (dict_set news_by_category category arts)
  end.

Definition total_articles (news_by_category : list (string * list article)) : Z :=
  foldr Z.add 0 (map (fun kv => Z.of_nat (length (snd kv))) news_by_category).

Definition main : M Z :=
  let api_key := get_api_key in
  if negb (truthy (PyStr api_key)) then
    _ ← print "Error: No API key found.";
    _ ← print ("Create a file at: " +:+ API_KEY_FILE);
    _ ← print "Or set NEWSAPI_KEY environment variable.";
    _ ← print "Get a free key at: https://newsapi.org/register";
    mret 1
  else
    now ← datetime_now None;
    _ ← print ("Fetching news at " +:+ strftime_stamp now +:+ "...");
    news_by_category ← fetch_categories CATEGORIES api_key [];
    _ ← print ("  Found " +:+ str_of_int (total_articles news_by_category) +:+ " articles");
    html ← generate_html news_by_category;
    _ ← write_file html;
    _ ← print ("Updated: " +:+ OUTPUT_FILE);
    mret 0.

End Program.
(** ** Reading the date label off the elapsed time *)

Definition us_per_hour : Z := 3600000000.
Definition us_per_day : Z := 86400000000.

(** The label of a timestamp that is [age] microseconds old. *)
Definition elapsed_label (age : Z) (dt : datetime) : string :=
  if age <? us_per_hour then "Just now"
  else if age <? us_per_day then str_of_int (age / us_per_hour) +:+ "h ago"
  else if age <? 2 * us_per_day then "Yesterday"
  else if age <? 7 * us_per_day then str_of_int (age / us_per_day) +:+ " days ago"
  else strftime_b_d (fields dt).

(** The label as the specification words it, by calendar days: the same day,
    one day prior, two to six days prior, otherwise the absolute form. *)
Definition calendar_label (now : civil) (dt : datetime) : string :=
  let d := ymd2ord (year now) (month now) (day now)
           - ymd2ord (year (fields dt)) (month (fields dt)) (day (fields dt)) in
  let age := civil_us now - civil_us (fields dt) in
  if d =? 0 then
    if age <? us_per_hour then "Just now" else str_of_int (age / us_per_hour) +:+ "h ago"
  else if d =? 1 then "Yesterday"
  else if (2 <=? d) && (d <=? 6) then str_of_int d +:+ " days ago"
  else strftime_b_d (fields dt).

(** A parser for the timestamps the API sends, [YYYY-MM-DDTHH:MM:SS] with an
    optional [+HH:MM] or [-HH:MM], one of the forms [fromisoformat] accepts. *)
Definition digit (c : ascii) : option Z :=
  let n := Z.of_nat (nat_of_ascii c) in
  if (48 <=? n) && (n <=? 57) then Some (n - 48) else None.

Fixpoint number (k : nat) (acc : Z) (cs : list ascii) : option (Z * list ascii) :=
  match k with
  | O => Some (acc, cs)
  | S k' =>
      match cs with
      | c :: cs' => d ← digit c; number k' (acc * 10 + d) cs'
      | [] => None
      end
  end.

Definition expect (c : ascii) (cs : list ascii) : option (list ascii) :=
  match cs with
  | c' :: cs' => if Ascii.eqb c c' then Some cs' else None
  | [] => None
  end.

Definition parse_offset (cs : list ascii) : option (option Z) :=
  match cs with
  | [] => Some None
  | sign :: cs1 =>
      sgn ← (if Ascii.eqb sign "+" then Some 1
             else if Ascii.eqb sign "-" then Some (-1) else None);
      '(h, cs2) ← number 2 0 cs1;
      cs3 ← expect ":" cs2;
      '(m, cs4) ← number 2 0 cs3;
      match cs4 with
      | [] => if (h <? 24) && (m <? 60) then Some (Some (sgn * (h * 3600 + m * 60))) else None
      | _ => None
      end
  end.

Definition fromisoformat_seconds (s : string) : option datetime :=
  '(y, cs) ← number 4 0 (String.list_ascii_of_string s);
  cs ← expect "-" cs;
  '(mo, cs) ← number 2 0 cs;
  cs ← expect "-" cs;
  '(d, cs) ← number 2 0 cs;
  cs ← expect "T" cs;
  '(h, cs) ← number 2 0 cs;
  cs ← expect ":" cs;
  '(mi, cs) ← number 2 0 cs;
  cs ← expect ":" cs;
  '(sec, cs) ← number 2 0 cs;
  tz ← parse_offset cs;
  if (1 <=? y) && (1 <=? mo) && (mo <=? 12) && (1 <=? d) && (d <=? days_in_month y mo)
     && (h <? 24) && (mi <? 60) && (sec <? 60)
  then Some (Datetime (Civil y mo d h mi sec 0) tz)
  else None.

(** ** Vocabulary for the card fields *)

(** The title text the card starts from (line 112, before escaping). *)
Definition raw_title (a : article) : string :=
  text_of (py_or (get (title a) (PyStr "Untitled")) (PyStr "Untitled")).

(** The description text the excerpt starts from (line 120, before escaping). *)
Definition raw_description (a : article) : string :=
  text_of (py_or (get (description a) (PyStr EmptyString)) (PyStr EmptyString)).

(** The characters [html.escape] rewrites. *)
Definition is_special (c : ascii) : bool :=
  Ascii.eqb c "&" || Ascii.eqb c "<" || Ascii.eqb c ">"
  || Ascii.eqb c (Ascii.ascii_of_nat 34) || Ascii.eqb c (Ascii.ascii_of_nat 39).

Fixpoint all_chars (p : ascii -> bool) (s : string) : bool :=
  match s with
  | EmptyString => true
  | String c s' => p c && all_chars p s'
  end.

(** [c * n] *)
Fixpoint repeat_char (c : ascii) (n : nat) : string :=
  match n with
  | O => EmptyString
  | S n' => String c (repeat_char c n')
  end.

(** An article that carries a description and nothing else. *)
Definition described (d : string) : article :=
  Article None None SrcAbsent None (Some (PyStr d)).

(** The characters that open or close markup and attribute values. *)
Definition is_markup (c : ascii) : bool :=
  Ascii.eqb c "<" || Ascii.eqb c ">"
  || Ascii.eqb c (Ascii.ascii_of_nat 34) || Ascii.eqb c (Ascii.ascii_of_nat 39).

(** ** Vocabulary for whole runs *)



(** An article whose card can be rendered. *)
Definition card_ok (a : article) : Prop :=
  url a <> Some PyNone /\ source a <> SrcNull /\ source a <> SrcObj (Some PyNone).

(** A server that answers every request with one article whose [source] is
    [null], and a clock stopped at noon on 2024-03-10. *)
Definition null_source_article : article :=
  Article (Some (PyStr "Title")) (Some (PyStr "https://example.com/a")) SrcNull
          (Some (PyStr "2024-03-10T11:30:00Z")) (Some (PyStr "Text")).

Definition null_source_server (n : nat) (r : request) : http_outcome :=
  Body (JObject (Some [null_source_article])).

Definition noon_clock (n : nat) (tz : option Z) : civil := Civil 2024 3 10 12 0 0 0.

(** ** Sample inputs *)

Definition sample_article (u stamp : string) : article :=
  Article (Some (PyStr "Foo Bar - Example News")) (Some (PyStr u)) (SrcObj (Some (PyStr "Example")))
          (Some (PyStr stamp)) None.

(** An article without a [url] key. *)
Definition no_url_article : article :=
  Article (Some (PyStr "Foo")) None SrcAbsent (Some (PyStr "2024-03-10T11:30:00Z")) None.

(** Two queries' results: a repeated URL, and two articles of equal timestamp. *)
Definition sample_fetched : list (list article) :=
  [ [sample_article "https://example.com/1" "2024-03-09T08:00:00Z";
     sample_article "https://example.com/2" "2024-03-10T08:00:00Z"];
    [sample_article "https://example.com/1" "2024-03-10T09:00:00Z";
     sample_article "https://example.com/3" "2024-03-10T08:00:00Z";
     no_url_article] ].

(** A server that answers every request with the first sample list. *)
Definition sample_server (n : nat) (r : request) : http_outcome :=
  Body (JObject (Some [sample_article "https://example.com/1" "2024-03-09T08:00:00Z";
                       sample_article "https://example.com/2" "2024-03-10T08:00:00Z"])).


(** Clocks stopped at 2024-03-10, one in the morning and noon. *)
Definition one_am_clock (n : nat) (tz : option Z) : civil := Civil 2024 3 10 1 0 0 0.

(** What the loop keeps true of the state and the articles gone through. *)
Definition first_kept (st : list article * gset string) (seen : list article) : Prop :=
  (forall a, a ∈ st.1 -> head (filter (fun b => url_text b = url_text a) seen) = Some a) /\
  (forall b, b ∈ seen -> url_text b <> EmptyString -> url_text b ∈ st.2) /\
  (forall u, u ∈ st.2 -> exists a, a ∈ st.1 /\ url_text a = u).

(** ** Vocabulary for the effects of a run *)

(** The console, the requests and the output file are as they were. *)
Definition same_io (w w' : world) : Prop :=
  stdout w' = stdout w /\ requests w' = requests w /\ output_file w' = output_file w.

(** The requests of a list of queries, and of a configuration. *)
Definition query_requests (queries : list string) (api_key : string) : list request :=
  (fun q => Request q 4 api_key) <$> queries.

Definition all_requests (categories : list (string * list string)) (api_key : string)
  : list request :=
  concat ((fun kv => query_requests kv.2 api_key) <$> categories).

(** An answer that brings no article. *)
Definition no_articles (o : http_outcome) : Prop :=
  match o with
  | Body (JObject (Some (_ :: _))) => False
  | _ => True
  end.

(** Seven articles of distinct URLs, oldest first, from one query. *)
Definition seven_fetched : list (list article) :=
  [ [sample_article "https://example.com/1" "2024-03-01T08:00:00Z";
     sample_article "https://example.com/2" "2024-03-02T08:00:00Z";
     sample_article "https://example.com/3" "2024-03-03T08:00:00Z";
     sample_article "https://example.com/4" "2024-03-04T08:00:00Z";
     sample_article "https://example.com/5" "2024-03-05T08:00:00Z";
     sample_article "https://example.com/6" "2024-03-06T08:00:00Z";
     sample_article "https://example.com/7" "2024-03-07T08:00:00Z"] ].

(** Two articles of distinct URLs, the second with a [null] timestamp. *)
Definition null_stamp_fetched : list (list article) :=
  [ [sample_article "https://example.com/1" "2024-03-01T08:00:00Z";
     Article None (Some (PyStr "https://example.com/2")) SrcAbsent (Some PyNone) None] ].

(** * Properties *)

(** ** The order on sort keys *)

Lemma compare_lt_trans (s t u : string) :
  String.compare s t = Lt -> String.compare t u = Lt -> String.compare s u = Lt.
Proof.
  revert t u. induction s as [|a s IH]; intros [|b t] [|c u]; simpl; try done.
  unfold Ascii.compare.
  destruct (N.compare_spec (N_of_ascii a) (N_of_ascii b)) as [Hab|Hab|Hab];
    destruct (N.compare_spec (N_of_ascii b) (N_of_ascii c)) as [Hbc|Hbc|Hbc];
    try done; intros H1 H2.
  - rewrite Hab, Hbc, N.compare_refl. eauto.
  - rewrite Hab. by apply N.compare_lt_iff in Hbc as ->.
  - rewrite <- Hbc. by apply N.compare_lt_iff in Hab as ->.
  - assert (N_of_ascii a < N_of_ascii c)%N as Hac by lia.
    by apply N.compare_lt_iff in Hac as ->.
Qed.

Lemma ltb_leb (s t : string) : String.ltb s t = true -> String.leb s t = true.
Proof. unfold String.ltb, String.leb. by destruct (String.compare s t). Qed.

Lemma ltb_false_leb (s t : string) : String.ltb s t = false <-> String.leb t s = true.
Proof.
  unfold String.ltb, String.leb. rewrite (String.compare_antisym s t).
  by destruct (String.compare t s).
Qed.

Lemma leb_refl (s : string) : String.leb s s = true.
Proof. by destruct (String.leb_total s s). Qed.

Lemma leb_trans (s t u : string) :
  String.leb s t = true -> String.leb t u = true -> String.leb s u = true.
Proof.
  unfold String.leb.
  destruct (String.compare s t) eqn:Hst; try done;
    destruct (String.compare t u) eqn:Htu; try done; intros _ _.
  - apply String.compare_eq_iff in Hst as ->. by rewrite Htu.
  - apply String.compare_eq_iff in Hst as ->. by rewrite Htu.
  - apply String.compare_eq_iff in Htu as <-. by rewrite Hst.
  - by rewrite (compare_lt_trans _ _ _ Hst Htu).
Qed.

(** ** The accumulation loop *)

Lemma visit_falsy (st : list article * gset string) (a : article) :
  truthy (get (url a) (PyStr EmptyString)) = false -> visit st a = st.
Proof.
  intros H. destruct st as [l seen]. unfold visit. cbv zeta.
  destruct (get (url a) (PyStr EmptyString)) as [|s]; [done|].
  by rewrite H.
Qed.

Lemma visit_cases (st : list article * gset string) (a : article) :
  visit st a = st \/
  (truthy (get (url a) (PyStr EmptyString)) = true /\ (url_text a ∉ st.2) /\
   visit st a = (st.1 ++ [a], {[ url_text a ]} ∪ st.2)).
Proof.
  destruct st as [l seen]. unfold visit, url_text. cbv zeta.
  destruct (get (url a) (PyStr EmptyString)) as [|s] eqn:Hu; [by left|].
  destruct (truthy _) eqn:Ht; [|by left]. simpl.
  case_bool_decide as Hin; simpl; [by left|].
  by right.
Qed.


Lemma visit_inv (st : list article * gset string) (a : article) :
  acc_inv st -> acc_inv (visit st a).
Proof.
  intros [Hnd Hin]. destruct (visit_cases st a) as [->|(Ht & Hnew & ->)]; [done|].
  split; simpl.
  - rewrite fmap_app. apply NoDup_app. split_and!; [done| |apply NoDup_singleton].
    intros u Hu Hu'. apply list_elem_of_singleton in Hu' as ->.
    apply list_elem_of_fmap in Hu as (b & Hb & Hbl).
    apply Hnew. rewrite Hb. by apply Hin.
  - intros b [Hb|Hb%list_elem_of_singleton]%elem_of_app.
    + destruct (Hin b Hb) as [Htb Hsb]. split; [done|]. by apply elem_of_union_r.
    + subst b. split; [done|]. by apply elem_of_union_l, elem_of_singleton.
Qed.

Lemma foldl_visit_inv (arts : list article) (st : list article * gset string) :
  acc_inv st -> acc_inv (foldl visit st arts).
Proof.
  revert st. induction arts as [|a arts IH]; intros st H; simpl; [done|].
  by apply IH, visit_inv.
Qed.

Lemma accumulate_inv (fetched : list (list article)) : acc_inv (accumulate fetched).
Proof.
  unfold accumulate.
  assert (acc_inv ([], ∅)) as H0.
  { split; simpl; [constructor|]. intros a Ha. by apply elem_of_nil in Ha. }
  revert H0. generalize (([], ∅) : list article * gset string).
  induction fetched as [|arts fetched IH]; intros st H; simpl; [done|].
  by apply IH, foldl_visit_inv.
Qed.

(** The accumulated list is the fetch order with articles left out. *)
Lemma foldl_visit_sublist (arts : list article) (st : list article * gset string) :
  exists kept, kept `sublist_of` arts /\ (foldl visit st arts).1 = st.1 ++ kept.
Proof.
  revert st. induction arts as [|a arts IH]; intros st; simpl.
  - exists []. by rewrite app_nil_r.
  - destruct (IH (visit st a)) as (kept & Hsub & ->).
    destruct (visit_cases st a) as [->|(_ & _ & ->)]; simpl.
    + exists kept. split; [by apply sublist_cons|done].
    + exists (a :: kept). split; [by apply sublist_skip|]. by rewrite <- app_assoc.
Qed.

Lemma accumulate_sublist (fetched : list (list article)) :
  (accumulate fetched).1 `sublist_of` concat fetched.
Proof.
  unfold accumulate.
  enough (forall st, exists kept, kept `sublist_of` concat fetched /\
            (foldl (fun st arts => foldl visit st arts) st fetched).1 = st.1 ++ kept) as H.
  { destruct (H ([], ∅)) as (kept & Hs & ->). done. }
  induction fetched as [|arts fetched IH]; intros st; simpl.
  - exists []. by rewrite app_nil_r.
  - destruct (IH (foldl visit st arts)) as (k2 & Hs2 & ->).
    destruct (foldl_visit_sublist arts st) as (k1 & Hs1 & ->).
    exists (k1 ++ k2). split; [by apply sublist_app|]. by rewrite app_assoc.
Qed.

(** ** The sort *)


Lemma sort_key_text (a : article) :
  timestamp_is_text a -> sort_key a = PyStr (key_text a).
Proof.
  unfold timestamp_is_text, key_text, sort_key, get.
  destruct (publishedAt a) as [[|s]|]; done.
Qed.

Lemma insert_desc_ok (x : article) (l : list article) :
  timestamp_is_text x -> Forall timestamp_is_text l ->
  exists r, insert_desc x l = Ok r.
Proof.
  intros Hx Hl. induction Hl as [|y l Hy Hl IH]; simpl; [by eexists|].
  rewrite (sort_key_text x Hx), (sort_key_text y Hy). simpl.
  destruct (String.ltb _ _); [|by eexists].
  destruct IH as [r ->]. by eexists.
Qed.

Lemma insert_desc_perm (x : article) (l r : list article) :
  insert_desc x l = Ok r -> r ≡ₚ x :: l.
Proof.
  revert r. induction l as [|y l IH]; intros r; simpl.
  - by intros [= <-].
  - destruct (py_lt _ _) as [[|]|]; [|by intros [= <-]|done].
    destruct (insert_desc x l) as [r'|]; [|done]. intros [= <-].
    rewrite (IH r' eq_refl). apply Permutation_swap.
Qed.

Lemma py_lt_text (a b : article) (c : bool) :
  py_lt (sort_key a) (sort_key b) = Ok c -> c = String.ltb (key_text a) (key_text b).
Proof.
  unfold key_text. destruct (sort_key a), (sort_key b); simpl; try done. by intros [= <-].
Qed.

Lemma insert_desc_sorted (x : article) (l r : list article) :
  StronglySorted key_ge l -> insert_desc x l = Ok r -> StronglySorted key_ge r.
Proof.
  revert r. induction l as [|y l IH]; intros r Hs; simpl.
  - intros [= <-]. repeat constructor.
  - apply StronglySorted_inv in Hs as [Hs Hy].
    destruct (py_lt _ _) as [[|]|] eqn:Hlt; [| |done].
    + destruct (insert_desc x l) as [r'|] eqn:Hins; [|done]. intros [= <-].
      constructor; [by apply IH|].
      rewrite (insert_desc_perm _ _ _ Hins). constructor; [|done].
      apply py_lt_text in Hlt. by apply ltb_leb.
    + intros [= <-]. apply py_lt_text in Hlt. symmetry in Hlt.
      apply ltb_false_leb in Hlt.
      constructor; [by constructor|]. constructor; [done|].
      eapply Forall_impl; [exact Hy|]. intros z Hz. unfold key_ge in *.
      by eapply leb_trans.
Qed.

Lemma insert_desc_stable (x : article) (l r : list article) (k : pyval) :
  insert_desc x l = Ok r ->
  filter (fun a => sort_key a = k) r = filter (fun a => sort_key a = k) (x :: l).
Proof.
  revert r. induction l as [|y l IH]; intros r; simpl.
  - by intros [= <-].
  - destruct (py_lt _ _) as [[|]|] eqn:Hlt; [|by intros [= <-]|done].
    destruct (insert_desc x l) as [r'|]; [|done]. intros [= <-].
    rewrite filter_cons, (IH r' eq_refl), !filter_cons.
    destruct (decide (sort_key y = k)) as [Hy|Hy]; [|done].
    destruct (decide (sort_key x = k)) as [Hx|Hx]; [|done].
    exfalso. pose proof (py_lt_text _ _ _ Hlt) as Hc. unfold key_text in Hc.
    rewrite Hx, Hy in Hc.
    by rewrite (proj2 (ltb_false_leb _ _) (leb_refl _)) in Hc.
Qed.

Lemma sort_desc_ok (l : list article) :
  Forall timestamp_is_text l ->
  exists r, sort_desc l = Ok r /\ r ≡ₚ l /\ StronglySorted key_ge r /\
    forall k, filter (fun a => sort_key a = k) r = filter (fun a => sort_key a = k) l.
Proof.
  induction 1 as [|x l Hx Hl IH]; simpl.
  - exists []. split_and!; [done|done|constructor|done].
  - destruct IH as (r & -> & Hp & Hs & Hst).
    destruct (insert_desc_ok x r Hx) as [r' Hr'].
    { by rewrite Hp. }
    exists r'. split_and!; [done| | |].
    + by rewrite (insert_desc_perm _ _ _ Hr'), Hp.
    + by eapply insert_desc_sorted.
    + intros k. rewrite (insert_desc_stable _ _ _ k Hr'), !filter_cons, Hst. done.
Qed.

(** A [None] key among two or more makes the sort raise. *)
Lemma py_lt_raise (a b : pyval) (e : exn) : py_lt a b = Raise e -> e = TypeError.
Proof. destruct a, b; simpl; congruence. Qed.

Lemma py_lt_ok (a b : pyval) (c : bool) : py_lt a b = Ok c -> a <> PyNone /\ b <> PyNone.
Proof. by destruct a, b. Qed.

Lemma insert_desc_raise (x : article) (l : list article) (e : exn) :
  insert_desc x l = Raise e -> e = TypeError.
Proof.
  induction l as [|y l IH]; simpl; [done|].
  destruct (py_lt _ _) as [[|]|e'] eqn:Hlt; [|done|].
  - destruct (insert_desc x l); [done|]. intros [= <-]. by apply IH.
  - intros [= <-]. by eapply py_lt_raise.
Qed.

Lemma sort_desc_raise (l : list article) (e : exn) :
  sort_desc l = Raise e -> e = TypeError.
Proof.
  induction l as [|x l IH]; simpl; [done|].
  destruct (sort_desc l) as [r|e'].
  - apply insert_desc_raise.
  - intros [= <-]. by apply IH.
Qed.

Lemma sort_desc_perm (l r : list article) : sort_desc l = Ok r -> r ≡ₚ l.
Proof.
  revert r. induction l as [|x l IH]; intros r; simpl; [by intros [= <-]|].
  destruct (sort_desc l) as [r'|]; [|done]. intros Hr.
  by rewrite (insert_desc_perm _ _ _ Hr), (IH r' eq_refl).
Qed.

Lemma sort_desc_keys (l r : list article) :
  sort_desc l = Ok r -> (2 <= length l)%nat -> Forall (fun a => sort_key a <> PyNone) l.
Proof.
  revert r. induction l as [|x l IH]; intros r; simpl; [lia|].
  destruct (sort_desc l) as [r'|] eqn:Hl; [|done]. intros Hr Hlen.
  pose proof (sort_desc_perm _ _ Hl) as Hp.
  destruct r' as [|y r'].
  { apply Permutation_nil_l in Hp. subst l. simpl in Hlen. lia. }
  simpl in Hr. destruct (py_lt _ _) as [c|] eqn:Hlt; [|done].
  apply py_lt_ok in Hlt as [Hx Hy]. constructor; [done|].
  destruct l as [|z [|z' l]].
  - symmetry in Hp. by apply Permutation_nil_cons in Hp.
  - apply Permutation_singleton_r in Hp. injection Hp as -> _. by constructor.
  - apply (IH (y :: r') eq_refl). simpl. lia.
Qed.

Lemma sort_desc_raises (l : list article) :
  (2 <= length l)%nat -> Exists (fun a => sort_key a = PyNone) l ->
  sort_desc l = Raise TypeError.
Proof.
  intros Hlen Hex. destruct (sort_desc l) as [r|e] eqn:Hs.
  - pose proof (sort_desc_keys _ _ Hs Hlen) as Hall.
    apply Exists_exists in Hex as (a & Ha & Hk).
    rewrite Forall_forall in Hall. by destruct (Hall a Ha).
  - by rewrite (sort_desc_raise _ _ Hs).
Qed.

Lemma StronglySorted_lookup {A : Type} (R : relation A) (l : list A) (i j : nat) (a b : A) :
  StronglySorted R l -> (i < j)%nat -> l !! i = Some a -> l !! j = Some b -> R a b.
Proof.
  intros Hs. revert i j. induction Hs as [|x l Hs IH Hx]; intros i j Hij Hi Hj; [done|].
  destruct j as [|j]; [lia|]. simpl in Hj. destruct i as [|i]; simpl in Hi.
  - injection Hi as ->. rewrite Forall_forall in Hx. apply Hx. by eapply list_elem_of_lookup_2.
  - apply (IH i j); [lia|done|done].
Qed.

Lemma filter_take_prefix {A : Type} (P : A -> Prop) `{forall x, Decision (P x)}
    (n : nat) (l : list A) :
  filter P (take n l) `prefix_of` filter P l.
Proof.
  rewrite <- (take_drop n l) at 2. rewrite filter_app. by apply prefix_app_r.
Qed.

Lemma Forall_concat_all {A : Type} (P : A -> Prop) (ls : list (list A)) :
  Forall (Forall P) ls -> Forall P (concat ls).
Proof. induction 1; simpl; [constructor|by apply Forall_app]. Qed.

(** ** The aggregator *)




(** C1, as amended: an article whose URL is empty, null or absent is skipped
    by the loop, which leaves the accumulated list and the seen set as they
    were; such an article is never in the aggregator's output. *)
Theorem falsy_url_never_appended (fetched : list (list article)) (a : article) :
  truthy (get (url a) (PyStr EmptyString)) = false ->
  (forall st, visit st a = st) /\
  (a ∉ (accumulate fetched).1) /\
  (forall out, aggregate fetched = Ok out -> a ∉ out).
Proof.
  intros Hf. split; [intros st; by apply visit_falsy|].
  assert (a ∉ (accumulate fetched).1) as Hacc.
  { intros Hin. destruct (accumulate_inv fetched) as [_ Hall].
    destruct (Hall a Hin) as [Ht _]. congruence. }
  split; [done|]. intros out. unfold aggregate, top6.
  destruct (sort_desc _) as [r|] eqn:Hs; [|done]. intros [= <-] Hin.
  apply Hacc. rewrite <- (sort_desc_perm _ _ Hs).
  eapply elem_of_sublist; [exact Hin|apply sublist_take].
Qed.

(** C3: on fetch results whose timestamps are strings where present, the
    aggregator returns at most six articles, in descending [publishedAt]
    order with a missing timestamp read as the empty string, with pairwise
    distinct URLs, and articles of equal timestamp in the order in which
    they were appended, which is their fetch order. *)
Theorem aggregate_sorted_unique_stable (fetched : list (list article)) :
  Forall (Forall timestamp_is_text) fetched ->
  exists out,
    aggregate fetched = Ok out /\
    (length out <= 6)%nat /\
    (forall i j a b, (i < j)%nat -> out !! i = Some a -> out !! j = Some b ->
       String.leb (key_text b) (key_text a) = true) /\
    (forall a, a ∈ out -> publishedAt a = None -> key_text a = EmptyString) /\
    NoDup (url_text <$> out) /\
    (forall k, filter (fun a => sort_key a = k) out
                 `prefix_of` filter (fun a => sort_key a = k) (accumulate fetched).1) /\
    (accumulate fetched).1 `sublist_of` concat fetched.
Proof.
  intros Hts.
  assert (Forall timestamp_is_text (accumulate fetched).1) as Hacc.
  { apply Forall_forall. intros a Ha.
    pose proof (elem_of_sublist _ _ _ Ha (accumulate_sublist fetched)) as Hc.
    apply Forall_concat_all in Hts. rewrite Forall_forall in Hts. by apply Hts. }
  destruct (sort_desc_ok _ Hacc) as (r & Hr & Hp & Hs & Hst).
  exists (take 6 r). unfold aggregate, top6. rewrite Hr. split_and!.
  - done.
  - rewrite length_take. lia.
  - intros i j a b Hij Hi Hj. 
    assert (StronglySorted key_ge (take 6 r)) as Hs6.
    { rewrite <- (take_drop 6 r) in Hs. by apply StronglySorted_app_1_l in Hs. }
    apply (StronglySorted_lookup key_ge _ i j a b Hs6 Hij Hi Hj).
  - intros a _ Hnone. unfold key_text, sort_key. by rewrite Hnone.
  - rewrite fmap_take. eapply sublist_NoDup; [|apply sublist_take].
    rewrite Hp. apply accumulate_inv.
  - intros k. rewrite <- Hst. apply filter_take_prefix.
  - apply accumulate_sublist.
Qed.

(** ** The date label *)

Lemma format_date_parsed parse clock (s : string) (dt : datetime) (w : world) :
  parse (replace_Z s) = Some dt ->
  format_date parse clock (PyStr s) w
  = (Ok (relative_label (datetime_sub (clock (clock_reads w) (tzinfo dt)) dt) dt),
     World (stdout w) (requests w) (output_file w) (S (clock_reads w))).
Proof. intros H. unfold format_date. by rewrite H. Qed.

Lemma format_date_unparsed parse clock (s : string) (w : world) :
  parse (replace_Z s) = None -> format_date parse clock (PyStr s) w = (Ok EmptyString, w).
Proof. intros H. unfold format_date. by rewrite H. Qed.

Lemma relative_label_elapsed (age : Z) (dt : datetime) :
  0 <= age -> relative_label (timedelta_of_us age) dt = elapsed_label age dt.
Proof.
  intros Hage. unfold relative_label, elapsed_label, timedelta_of_us, us_per_hour, us_per_day.
  simpl. rewrite Z.div_div by lia. change (1000000 * 3600) with 3600000000.
  pose proof (Z.div_mod age 86400000000 ltac:(lia)) as Hd.
  pose proof (Z.mod_pos_bound age 86400000000 ltac:(lia)) as Hr.
  pose proof (Z.div_mod (age mod 86400000000) 3600000000 ltac:(lia)) as Hh.
  pose proof (Z.mod_pos_bound (age mod 86400000000) 3600000000 ltac:(lia)) as Hm.
  pose proof (Z.div_mod age 3600000000 ltac:(lia)) as Hh'.
  pose proof (Z.mod_pos_bound age 3600000000 ltac:(lia)) as Hm'.
  revert Hd Hr Hh Hm Hh' Hm'.
  generalize (age mod 86400000000 mod 3600000000) (age mod 86400000000 / 3600000000).
  generalize (age mod 3600000000) (age / 3600000000).
  generalize (age mod 86400000000) (age / 86400000000).
  intros r d m' h' m h Hd Hr Hh Hm Hh' Hm'.
  destruct (Z.eqb_spec d 0) as [Hd0|Hd0].
  - assert (h = h') as -> by lia.
    destruct (Z.eqb_spec h' 0), (Z.ltb_spec age 3600000000); try lia; [done|].
    destruct (Z.ltb_spec age 86400000000); [done|lia].
  - destruct (Z.ltb_spec age 3600000000); [lia|].
    destruct (Z.ltb_spec age 86400000000); [lia|].
    destruct (Z.eqb_spec d 1), (Z.ltb_spec age (2 * 86400000000)); try lia; [done|].
    destruct (Z.ltb_spec d 7), (Z.ltb_spec age (7 * 86400000000)); try lia; done.
Qed.

Lemma str_of_int_neg (n : Z) : n < 0 -> exists t, str_of_int n = String "-" t.
Proof. destruct n as [|p|p]; [lia|lia|]. intros _. by eexists. Qed.

Lemma strftime_b_d_head (c : civil) (t : string) : strftime_b_d c <> String "-" t.
Proof.
  unfold strftime_b_d, month_abbr.
  destruct (Z.to_nat (month c - 1)) as [|n]; [done|].
  do 11 (destruct n as [|n]; [done|]). by destruct n.
Qed.

(** C4, as amended: for a timestamp not later than the render time the label
    goes by the time elapsed, not by the calendar: under one hour [Just now],
    under 24 hours the whole hours, from 24 to under 48 hours [Yesterday]
    (25 hours before the render time is [Yesterday]), from 2 to under 7 whole
    days the whole days, and the month and day from then on; a timestamp that
    does not parse, or is [null], gives the empty label and no error. *)
Theorem format_date_by_elapsed_time parse clock (w : world) :
  (forall s dt,
     parse (replace_Z s) = Some dt ->
     0 <= civil_us (clock (clock_reads w) (tzinfo dt)) - civil_us (fields dt) ->
     (format_date parse clock (PyStr s) w).1
     = Ok (elapsed_label
             (civil_us (clock (clock_reads w) (tzinfo dt)) - civil_us (fields dt)) dt)) /\
  (forall s, parse (replace_Z s) = None ->
     format_date parse clock (PyStr s) w = (Ok EmptyString, w)) /\
  format_date parse clock PyNone w = (Ok EmptyString, w).
Proof.
  split_and!.
  - intros s dt Hp Hage. rewrite (format_date_parsed _ _ _ _ _ Hp). cbn [fst].
    unfold datetime_sub. by rewrite relative_label_elapsed.
  - intros s Hp. by apply format_date_unparsed.
  - done.
Qed.

(** C10: a timestamp that parses and is later than the render time is
    labelled [<N> days ago] with [N] negative, [-1] up to 24 hours ahead;
    the label is not [Just now], not empty, and not the month and day. *)
Theorem format_date_future parse clock (s : string) (dt : datetime) (w : world) :
  parse (replace_Z s) = Some dt ->
  civil_us (clock (clock_reads w) (tzinfo dt)) < civil_us (fields dt) ->
  exists n label,
    (format_date parse clock (PyStr s) w).1 = Ok label /\
    label = str_of_int n +:+ " days ago" /\
    n < 0 /\
    (civil_us (fields dt) - civil_us (clock (clock_reads w) (tzinfo dt)) <= us_per_day ->
     n = -1) /\
    label <> "Just now" /\ label <> EmptyString /\ label <> strftime_b_d (fields dt).
Proof.
  intros Hp Hlt. rewrite (format_date_parsed _ _ _ _ _ Hp). cbn [fst].
  set (age := civil_us (clock (clock_reads w) (tzinfo dt)) - civil_us (fields dt)).
  assert (age < 0) as Hage by (unfold age; lia).
  exists (age / us_per_day), (str_of_int (age / us_per_day) +:+ " days ago").
  assert (age / us_per_day < 0) as Hn.
  { unfold us_per_day. Z.div_mod_to_equations. lia. }
  split_and!.
  - unfold datetime_sub, relative_label, timedelta_of_us. fold age.
    cbn [days seconds microseconds]. fold us_per_day.
    destruct (Z.eqb_spec (age / us_per_day) 0) as [?|_]; [lia|].
    destruct (Z.eqb_spec (age / us_per_day) 1) as [?|_]; [lia|].
    destruct (Z.ltb_spec (age / us_per_day) 7) as [_|?]; [done|lia].
  - done.
  - done.
  - intros Hday. unfold us_per_day in *. Z.div_mod_to_equations. lia.
  - destruct (str_of_int_neg _ Hn) as [t ->]. done.
  - destruct (str_of_int_neg _ Hn) as [t ->]. done.
  - destruct (str_of_int_neg _ Hn) as [t ->]. intros Heq. symmetry in Heq.
    by apply strftime_b_d_head in Heq.
Qed.

(** ** Escaping and the title separator *)

Lemma app_nil_str (s : string) : EmptyString +:+ s = s.
Proof. reflexivity. Qed.

Lemma app_cons_str (x : ascii) (a b : string) : String x a +:+ b = String x (a +:+ b).
Proof. reflexivity. Qed.

Ltac app_norm := rewrite ?app_cons_str, ?app_nil_str.

Lemma app_assoc_str (a b c : string) : (a +:+ b) +:+ c = a +:+ (b +:+ c).
Proof. induction a as [|x a IH]; app_norm; [done|]. by f_equal. Qed.

Lemma escape_char_cases (c : ascii) :
  (is_special c = false /\ escape_char c = String c EmptyString) \/
  (is_special c = true /\ exists e, escape_char c = String "&" e /\
     all_chars (fun x => negb (Ascii.eqb x " ")) e = true).
Proof.
  unfold is_special, escape_char.
  destruct (Ascii.eqb c "&"); [right; split; [done|by eexists]|].
  destruct (Ascii.eqb c "<"); [right; split; [done|by eexists]|].
  destruct (Ascii.eqb c ">"); [right; split; [done|by eexists]|].
  destruct (Ascii.eqb c (ascii_of_nat 34)); [right; split; [done|by eexists]|].
  destruct (Ascii.eqb c (ascii_of_nat 39)); [right; split; [done|by eexists]|].
  by left.
Qed.

Lemma prefix_cons (c d : ascii) (p s : string) :
  String.prefix (String c p) (String d s) = Ascii.eqb c d && String.prefix p s.
Proof.
  simpl. destruct (ascii_dec c d) as [->|Hne].
  - by rewrite Ascii.eqb_refl.
  - apply Ascii.eqb_neq in Hne. by rewrite Hne.
Qed.

Lemma prefix_nil_r (c : ascii) (p : string) : String.prefix (String c p) EmptyString = false.
Proof. done. Qed.

Lemma prefix_app_self (p t : string) : String.prefix p (p +:+ t) = true.
Proof.
  induction p as [|c p IH]; simpl; [by destruct t|].
  destruct (ascii_dec c c); done.
Qed.

Lemma special_neq (c d : ascii) :
  is_special c = false -> is_special d = true -> Ascii.eqb c d = false.
Proof.
  intros Hc Hd. destruct (Ascii.eqb_spec c d) as [->|]; [congruence|done].
Qed.

(** A separator of ordinary characters is found in the escaped text exactly
    where it stands in the text. *)
Lemma prefix_escape (p s : string) :
  all_chars (fun c => negb (is_special c)) p = true ->
  String.prefix p (escape_str s) = String.prefix p s.
Proof.
  revert s. induction p as [|c p IH]; intros s Hp.
  { simpl. by destruct (escape_str s), s. }
  simpl in Hp. apply andb_true_iff in Hp as [Hc Hp]. apply negb_true_iff in Hc.
  destruct s as [|d s]; [done|]. cbn [escape_str].
  destruct (escape_char_cases d) as [[Hd ->]|[Hd (e & -> & _)]].
  - app_norm. rewrite !prefix_cons. by rewrite IH.
  - app_norm. rewrite !prefix_cons.
    rewrite (special_neq c d Hc Hd), (special_neq c "&" Hc eq_refl). done.
Qed.

Section Separator.

(** A separator that opens with a space and holds no rewritten character. *)
Variable sep : string.
Hypothesis sep_plain : all_chars (fun c => negb (is_special c)) (String " " sep) = true.

Lemma prefix_skip (x : ascii) (t : string) :
  negb (Ascii.eqb x " ") = true -> String.prefix (String " " sep) (String x t) = false.
Proof.
  intros Hx. rewrite prefix_cons. apply negb_true_iff in Hx.
  rewrite Ascii.eqb_sym, Hx. done.
Qed.

Lemma contains_skip (e t : string) :
  all_chars (fun x => negb (Ascii.eqb x " ")) e = true ->
  contains (String " " sep) (e +:+ t) = contains (String " " sep) t.
Proof.
  induction e as [|x e IH]; intros He; [done|].
  simpl in He. apply andb_true_iff in He as [Hx He].
  app_norm. cbn [contains]. rewrite (prefix_skip _ _ Hx). by rewrite IH.
Qed.

Lemma rsplit_head_skip (e t : string) :
  all_chars (fun x => negb (Ascii.eqb x " ")) e = true ->
  rsplit_head (String " " sep) (e +:+ t)
  = (fun hd => e +:+ hd) <$> rsplit_head (String " " sep) t.
Proof.
  induction e as [|x e IH]; intros He.
  { app_norm. by destruct (rsplit_head _ t). }
  simpl in He. apply andb_true_iff in He as [Hx He].
  app_norm. cbn [rsplit_head]. rewrite (IH He), (prefix_skip _ _ Hx).
  by destruct (rsplit_head _ t).
Qed.

Lemma contains_escape (s : string) :
  contains (String " " sep) (escape_str s) = contains (String " " sep) s.
Proof.
  induction s as [|d s IH]; [done|].
  pose proof (prefix_escape (String " " sep) (String d s) sep_plain) as Hpre.
  cbn [escape_str] in *. cbn [contains]. rewrite <- Hpre.
  destruct (escape_char_cases d) as [[Hd ->]|[Hd (e & -> & He)]].
  - app_norm. cbn [contains]. by rewrite IH.
  - app_norm. cbn [contains]. by rewrite (contains_skip e _ He), IH.
Qed.

Lemma rsplit_head_escape (s : string) :
  rsplit_head (String " " sep) (escape_str s) = escape_str <$> rsplit_head (String " " sep) s.
Proof.
  induction s as [|d s IH]; [done|].
  pose proof (prefix_escape (String " " sep) (String d s) sep_plain) as Hpre.
  cbn [escape_str] in *. cbn [rsplit_head].
  destruct (escape_char_cases d) as [[Hd Hed]|[Hd (e & Hed & He)]].
  - rewrite Hed in Hpre |- *. rewrite !app_cons_str, !app_nil_str in *.
    cbn [rsplit_head]. rewrite IH, Hpre.
    destruct (rsplit_head _ s) as [hd|]; cbn [fmap option_fmap option_map].
    + cbn [escape_str]. rewrite Hed. by app_norm.
    + by destruct (String.prefix _ (String d s)).
  - rewrite <- Hpre. rewrite Hed. rewrite !app_cons_str.
    cbn [rsplit_head]. rewrite (rsplit_head_skip e _ He), IH.
    rewrite prefix_skip by done.
    destruct (rsplit_head _ s) as [hd|]; cbn [fmap option_fmap option_map]; [|done].
    cbn [escape_str]. rewrite Hed. by app_norm.
Qed.

Lemma rsplit_head_none (s : string) :
  rsplit_head (String " " sep) s = None <-> contains (String " " sep) s = false.
Proof.
  induction s as [|d s IH]; [done|].
  cbn [rsplit_head contains]. rewrite orb_false_iff.
  destruct (rsplit_head _ s) as [hd|].
  - split; [done|]. intros [_ H]. by apply IH in H.
  - destruct (String.prefix _ _); [split; [done|by intros []]|].
    split; [|done]. intros _. split; [done|]. by apply IH.
Qed.

(** The head of the split is the text before the rightmost separator. *)
Lemma rsplit_head_rightmost (hd tl : string) :
  contains (String " " sep) (sep +:+ tl) = false ->
  rsplit_head (String " " sep) (hd +:+ String " " sep +:+ tl) = Some hd.
Proof.
  intros Hlast. induction hd as [|c hd IH].
  - change (EmptyString +:+ String " " sep +:+ tl) with (String " " (sep +:+ tl)).
    cbn [rsplit_head]. apply rsplit_head_none in Hlast. rewrite Hlast.
    change (String " " (sep +:+ tl)) with (String " " sep +:+ tl).
    by rewrite prefix_app_self.
  - change (String c hd +:+ String " " sep +:+ tl)
      with (String c (hd +:+ String " " sep +:+ tl)).
    cbn [rsplit_head]. by rewrite IH.
Qed.

End Separator.

Lemma story_title_unfold (a : article) :
  story_title a
  = Ok (if contains " - " (escape_str (raw_title a))
        then rsplit1_head " - " (escape_str (raw_title a))
        else escape_str (raw_title a)).
Proof.
  unfold story_title, raw_title, py_or.
  destruct (title a) as [[|s]|]; simpl; try done.
  by destruct (negb (String.eqb s EmptyString)).
Qed.

(** C8: the card title is the article's title, [Untitled] when the title is
    absent, null or empty, cut before its rightmost [" - "] when it has one
    and whole otherwise, in escaped form. *)
Theorem story_title_strips_last_suffix (a : article) :
  (contains " - " (raw_title a) = false ->
     story_title a = Ok (escape_str (raw_title a))) /\
  (forall hd suffix,
     raw_title a = hd +:+ " - " +:+ suffix ->
     contains " - " ("- " +:+ suffix) = false ->
     story_title a = Ok (escape_str hd)) /\
  (forall s, title a = Some (PyStr s) -> s <> EmptyString -> raw_title a = s) /\
  (title a = None \/ title a = Some PyNone \/ title a = Some (PyStr EmptyString) ->
     story_title a = Ok "Untitled").
Proof.
  split_and!.
  - intros Hno. rewrite story_title_unfold, (contains_escape "- " eq_refl). by rewrite Hno.
  - intros hd suffix Hraw Hlast. rewrite story_title_unfold.
    rewrite (contains_escape "- " eq_refl). unfold rsplit1_head.
    rewrite (rsplit_head_escape "- " eq_refl), Hraw.
    pose proof (rsplit_head_rightmost "- " hd suffix Hlast) as Hsplit.
    assert (contains " - " (hd +:+ " - " +:+ suffix) = true) as ->.
    { apply not_false_iff_true. intros Hc.
      apply (rsplit_head_none "- ") in Hc. congruence. }
    by rewrite Hsplit.
  - intros s Hs Hne. unfold raw_title, py_or. rewrite Hs. simpl.
    apply String.eqb_neq in Hne. by rewrite Hne.
  - intros [H|[H|H]]; unfold story_title; by rewrite H.
Qed.

(** ** The excerpt *)

Lemma story_excerpt_unfold (a : article) :
  story_excerpt a
  = Ok (if 150 <? Z.of_nat (String.length (escape_str (raw_description a)))
        then take_str 147 (escape_str (raw_description a)) +:+ "..."
        else escape_str (raw_description a)).
Proof.
  unfold story_excerpt, raw_description, py_or.
  destruct (description a) as [[|s]|]; simpl; try done.
  by destruct (negb (String.eqb s EmptyString)).
Qed.

Lemma escape_str_plain (s : string) :
  all_chars (fun c => negb (is_special c)) s = true -> escape_str s = s.
Proof.
  induction s as [|c s IH]; [done|]. simpl. intros [Hc Hs]%andb_true_iff.
  apply negb_true_iff in Hc.
  destruct (escape_char_cases c) as [[_ ->]|[Hd _]]; [|congruence].
  app_norm. by rewrite IH.
Qed.

(** On a description free of the characters that [escape] rewrites, the
    excerpt is the first 147 characters and an ellipsis when the description
    is longer than 150 characters, and the description itself otherwise; an
    absent or null description gives the empty excerpt. *)
Lemma story_excerpt_plain (a : article) (d : string) :
  description a = Some (PyStr d) ->
  all_chars (fun c => negb (is_special c)) d = true ->
  story_excerpt a
  = Ok (if 150 <? Z.of_nat (String.length d) then take_str 147 d +:+ "..." else d).
Proof.
  intros Hd Hplain. rewrite story_excerpt_unfold. unfold raw_description, py_or.
  rewrite Hd. simpl. destruct (String.eqb_spec d EmptyString) as [->|Hne]; [done|].
  simpl. by rewrite escape_str_plain.
Qed.

Lemma story_excerpt_missing (a : article) :
  description a = None \/ description a = Some PyNone ->
  story_excerpt a = Ok EmptyString.
Proof. intros [H|H]; unfold story_excerpt; by rewrite H. Qed.

(** C5: the excerpt of a description of 31 ampersands, which is not longer
    than 150 characters, is cut all the same, inside an entity; and the
    excerpt of a description of 151 ampersands is not the escaped form of
    its first 147 characters and an ellipsis. *)
Theorem excerpt_measures_escaped_text :
  String.length (repeat_char "&" 31) = 31%nat /\
  story_excerpt (described (repeat_char "&" 31))
    = Ok (escape_str (repeat_char "&" 29) +:+ "&a" +:+ "...") /\
  story_excerpt (described (repeat_char "&" 31)) <> Ok (escape_str (repeat_char "&" 31)) /\
  String.length (repeat_char "&" 151) = 151%nat /\
  story_excerpt (described (repeat_char "&" 151))
    = Ok (escape_str (repeat_char "&" 29) +:+ "&a" +:+ "...") /\
  story_excerpt (described (repeat_char "&" 151))
    <> Ok (escape_str (take_str 147 (repeat_char "&" 151)) +:+ "...").
Proof. split_and!; by vm_compute. Qed.

(** ** Escaped form *)

Lemma escape_str_head_plain (c : ascii) (t x : string) :
  is_special c = false -> escape_str t = String c x ->
  exists t', t = String c t' /\ escape_str t' = x.
Proof.
  intros Hc. destruct t as [|d t]; [done|]. cbn [escape_str].
  destruct (escape_char_cases d) as [[_ ->]|[Hd (e & -> & _)]]; app_norm.
  - intros [= -> <-]. by eexists.
  - intros [= <- _]. done.
Qed.

Lemma escape_str_repeat_plain (c : ascii) (n : nat) (t x : string) :
  is_special c = false -> escape_str t = repeat_char c n +:+ x ->
  exists t', t = repeat_char c n +:+ t' /\ escape_str t' = x.
Proof.
  intros Hc. revert t. induction n as [|n IH]; intros t; cbn [repeat_char]; app_norm.
  - intros H. by exists t.
  - intros H. apply escape_str_head_plain in H as (t1 & -> & H1); [|done].
    apply IH in H1 as (t2 & -> & H2). by exists t2.
Qed.

(** No text escapes to an ampersand followed by a full stop. *)
Lemma escape_str_amp_dot (t x : string) : escape_str t <> String "&" (String "." x).
Proof.
  destruct t as [|d t]; [done|]. cbn [escape_str]. unfold escape_char.
  repeat (case_match; [app_norm; by intros [=]|]).
  app_norm. intros [= -> _]. done.
Qed.

(** C9: on a description of 146 letters, an ampersand and four more letters
    the excerpt ends in a bare ampersand; it is the escaped form of no text. *)
Theorem excerpt_bare_ampersand :
  story_excerpt (described (repeat_char "a" 146 +:+ "&aaaa"))
    = Ok (repeat_char "a" 146 +:+ "&...") /\
  forall t, escape_str t <> repeat_char "a" 146 +:+ "&...".
Proof.
  split; [by vm_compute|]. intros t Ht.
  apply escape_str_repeat_plain in Ht as (t' & _ & Ht'); [|done].
  by apply escape_str_amp_dot in Ht'.
Qed.

(** What does hold of the four fields: none holds a character that opens or
    closes markup or an attribute value. *)
Lemma escape_char_no_markup (c : ascii) :
  all_chars (fun x => negb (is_markup x)) (escape_char c) = true.
Proof.
  unfold escape_char, is_markup.
  destruct (Ascii.eqb c "&") eqn:H1; [done|].
  destruct (Ascii.eqb c "<") eqn:H2; [done|].
  destruct (Ascii.eqb c ">") eqn:H3; [done|].
  destruct (Ascii.eqb c (ascii_of_nat 34)) eqn:H4; [done|].
  destruct (Ascii.eqb c (ascii_of_nat 39)) eqn:H5; [done|].
  simpl. by rewrite H2, H3, H4, H5.
Qed.

Lemma all_chars_app (p : ascii -> bool) (s t : string) :
  all_chars p (s +:+ t) = all_chars p s && all_chars p t.
Proof. induction s as [|c s IH]; app_norm; simpl; [done|]. by rewrite IH, andb_assoc. Qed.

Lemma escape_str_no_markup (s : string) :
  all_chars (fun x => negb (is_markup x)) (escape_str s) = true.
Proof.
  induction s as [|c s IH]; [done|]. cbn [escape_str].
  by rewrite all_chars_app, escape_char_no_markup, IH.
Qed.

Lemma all_chars_take (p : ascii -> bool) (n : nat) (s : string) :
  all_chars p s = true -> all_chars p (take_str n s) = true.
Proof.
  revert s. induction n as [|n IH]; intros [|c s]; simpl; try done.
  intros [Hc Hs]%andb_true_iff. by rewrite Hc, IH.
Qed.

Lemma all_chars_rsplit_head (p : ascii -> bool) (sep s hd : string) :
  all_chars p s = true -> rsplit_head sep s = Some hd -> all_chars p hd = true.
Proof.
  revert hd. induction s as [|c s IH]; intros hd; [done|]. simpl.
  intros [Hc Hs]%andb_true_iff. destruct (rsplit_head sep s) as [hd'|].
  - intros [= <-]. simpl. by rewrite Hc, (IH hd').
  - case_match; [|done]. by intros [= <-].
Qed.

Lemma Ok_inj {A : Type} (x y : A) : Ok x = Ok y -> x = y.
Proof. by intros [=]. Qed.

(** X13: none of the four text fields of a card holds a character that
    opens or closes markup or an attribute value. *)
Lemma card_fields_no_markup (a : article) (t : string) :
  story_title a = Ok t \/ story_url a = Ok t \/ story_source a = Ok t \/ story_excerpt a = Ok t ->
  all_chars (fun x => negb (is_markup x)) t = true.
Proof.
  intros [H|[H|[H|H]]].
  - rewrite story_title_unfold in H. apply Ok_inj in H as <-.
    pose proof (escape_str_no_markup (raw_title a)) as He.
    destruct (contains _ _); [|done]. unfold rsplit1_head.
    destruct (rsplit_head _ _) as [hd|] eqn:Hs; [|done].
    by eapply all_chars_rsplit_head.
  - unfold story_url, escape in H. destruct (get _ _); [done|]. injection H as <-.
    apply escape_str_no_markup.
  - unfold story_source, escape in H.
    destruct (source a) as [| |nm]; [|done|].
    + injection H as <-. by vm_compute.
    + destruct (get _ _); [done|]. injection H as <-. apply escape_str_no_markup.
  - rewrite story_excerpt_unfold in H. apply Ok_inj in H as <-.
    case_match; [|apply escape_str_no_markup].
    by rewrite all_chars_app, (all_chars_take _ _ _ (escape_str_no_markup _)).
Qed.

(** ** The fetcher *)




(** ** Whole runs *)

Lemma bind_ok {A B : Type} (m : M A) (f : A -> M B) (w w' : world) (a : A) :
  m w = (Ok a, w') -> (m ≫= f) w = f a w'.
Proof. intros H. unfold mbind, M_bind. by rewrite H. Qed.






Lemma print_ok (line : string) (w : world) :
  print line w = (Ok tt, World (stdout w ++ [line]) (requests w) (output_file w) (clock_reads w)).
Proof. done. Qed.

Lemma datetime_now_ok clock (tz : option Z) (w : world) :
  datetime_now clock tz w
  = (Ok (clock (clock_reads w) tz),
     World (stdout w) (requests w) (output_file w) (S (clock_reads w))).
Proof. done. Qed.


Lemma format_date_ok parse clock (v : pyval) (w : world) :
  exists label w', format_date parse clock v w = (Ok label, w').
Proof.
  unfold format_date. destruct v as [|s]; [by do 2 eexists|].
  destruct (parse _); by do 2 eexists.
Qed.

Lemma generate_story_html_ok parse clock (a : article) (featured : bool) (w : world) :
  card_ok a ->
  exists c w', generate_story_html parse clock a featured w = (Ok c, w').
Proof.
  intros (Hu & Hs1 & Hs2). unfold generate_story_html.
  assert (exists u, story_url a = Ok u) as [u Hurl].
  { unfold story_url. destruct (url a) as [[|s]|]; [done|by eexists..]. }
  assert (exists s, story_source a = Ok s) as [s Hsrc].
  { unfold story_source. destruct (source a) as [| |[[|n]|]]; try done; by eexists. }
  destruct (format_date_ok parse clock (get (publishedAt a) (PyStr EmptyString)) w)
    as (label & w1 & Hd).
  unfold lift, mbind, M_bind.
  rewrite story_title_unfold, Hurl, Hsrc, Hd, story_excerpt_unfold. by do 2 eexists.
Qed.





(** C2: with a credential and a server that sends one article whose
    [source] is [null], the run ends in an [AttributeError] raised by the
    renderer, after the nine requests and before any file is written. *)
Theorem main_null_source_raises :
  exists w,
    main null_source_server fromisoformat_seconds noon_clock "/srv/techpulse"
         (Some "k3y") None world0
    = (Raise AttributeError, w) /\
    output_file w = None /\ length (requests w) = 9%nat.
Proof. eexists. by vm_compute. Qed.

(** ** Concrete runs *)

(** C1, as stated, fails: an article without a URL is fetched and is not in
    the accumulated list. *)
Lemma no_url_article_dropped :
  truthy (get (url no_url_article) (PyStr EmptyString)) = false /\
  no_url_article ∈ concat [[no_url_article]] /\
  (accumulate [[no_url_article]]).1 = [] /\
  aggregate [[no_url_article]] = Ok [].
Proof.
  split_and!; [done| |done|done]. apply list_elem_of_here.
Qed.

Lemma falsy_url_never_appended_witness :
  truthy (get (url no_url_article) (PyStr EmptyString)) = false /\
  (forall st, visit st no_url_article = st) /\
  (no_url_article ∉ (accumulate sample_fetched).1) /\
  (forall out, aggregate sample_fetched = Ok out -> no_url_article ∉ out).
Proof.
  split; [reflexivity|]. apply (falsy_url_never_appended sample_fetched no_url_article).
  reflexivity.
Defined.

Lemma aggregate_sorted_unique_stable_witness :
  Forall (Forall timestamp_is_text) sample_fetched /\
  exists out,
    aggregate sample_fetched = Ok out /\
    (length out <= 6)%nat /\
    NoDup (url_text <$> out).
Proof.
  assert (Forall (Forall timestamp_is_text) sample_fetched) as H.
  { repeat constructor; discriminate. }
  split; [exact H|].
  destruct (aggregate_sorted_unique_stable sample_fetched H)
    as (out & Hout & Hlen & _ & _ & Hnd & _).
  exists out. repeat split; assumption.
Defined.

(** C4, as stated, fails: 23:00 on the day before, rendered at 01:00, is two
    hours old and labelled by the hours, though the calendar day is the
    previous one; and a timestamp one hour ahead on the same calendar day is
    labelled with negative days. *)
Lemma format_date_not_by_calendar :
  (format_date fromisoformat_seconds one_am_clock (PyStr "2024-03-09T23:00:00Z") world0).1
    = Ok "2h ago" /\
  calendar_label (Civil 2024 3 10 1 0 0 0) (Datetime (Civil 2024 3 9 23 0 0 0) (Some 0))
    = "Yesterday" /\
  (format_date fromisoformat_seconds noon_clock (PyStr "2024-03-10T13:00:00Z") world0).1
    = Ok "-1 days ago" /\
  calendar_label (Civil 2024 3 10 12 0 0 0) (Datetime (Civil 2024 3 10 13 0 0 0) (Some 0))
    = "Just now".
Proof. split_and!; by vm_compute. Qed.

(** 25 hours before the render time. *)
Lemma format_date_by_elapsed_time_witness :
  fromisoformat_seconds (replace_Z "2024-03-09T11:00:00Z")
    = Some (Datetime (Civil 2024 3 9 11 0 0 0) (Some 0)) /\
  (format_date fromisoformat_seconds noon_clock (PyStr "2024-03-09T11:00:00Z") world0).1
    = Ok "Yesterday".
Proof.
  split; [reflexivity|].
  exact (proj1 (format_date_by_elapsed_time fromisoformat_seconds noon_clock world0)
           "2024-03-09T11:00:00Z" (Datetime (Civil 2024 3 9 11 0 0 0) (Some 0))
           eq_refl ltac:(vm_compute; discriminate)).
Defined.

Lemma format_date_future_witness :
  fromisoformat_seconds (replace_Z "2024-03-10T13:00:00Z")
    = Some (Datetime (Civil 2024 3 10 13 0 0 0) (Some 0)) /\
  exists n label,
    (format_date fromisoformat_seconds noon_clock (PyStr "2024-03-10T13:00:00Z") world0).1
      = Ok label /\
    label = str_of_int n +:+ " days ago" /\ n < 0.
Proof.
  split; [reflexivity|].
  destruct (format_date_future fromisoformat_seconds noon_clock "2024-03-10T13:00:00Z"
              (Datetime (Civil 2024 3 10 13 0 0 0) (Some 0)) world0 eq_refl)
    as (n & label & H1 & H2 & H3 & _).
  { vm_compute. reflexivity. }
  exists n, label. repeat split; assumption.
Defined.

Lemma story_title_strips_last_suffix_witness :
  raw_title (sample_article "https://example.com/1" "2024-03-09T08:00:00Z")
    = "Foo Bar" +:+ " - " +:+ "Example News" /\
  contains " - " ("- " +:+ "Example News") = false /\
  story_title (sample_article "https://example.com/1" "2024-03-09T08:00:00Z") = Ok "Foo Bar".
Proof.
  split; [reflexivity|]. split; [reflexivity|].
  exact (proj1 (proj2 (story_title_strips_last_suffix
                         (sample_article "https://example.com/1" "2024-03-09T08:00:00Z")))
           "Foo Bar" "Example News" eq_refl eq_refl).
Defined.



(** * Further properties of the aggregator *)

Lemma truthy_url_text (a : article) :
  truthy (get (url a) (PyStr EmptyString)) = true <-> url_text a <> EmptyString.
Proof.
  unfold url_text. destruct (get _ _) as [|s]; simpl; [done|].
  destruct (String.eqb_spec s EmptyString); simpl; split; congruence.
Qed.

Lemma visit_spec (st : list article * gset string) (a : article) :
  (truthy (get (url a) (PyStr EmptyString)) = false /\ visit st a = st) \/
  (truthy (get (url a) (PyStr EmptyString)) = true /\ url_text a ∈ st.2 /\ visit st a = st) \/
  (truthy (get (url a) (PyStr EmptyString)) = true /\ (url_text a ∉ st.2) /\
   visit st a = (st.1 ++ [a], {[ url_text a ]} ∪ st.2)).
Proof.
  destruct st as [l seen]. unfold visit, url_text. cbv zeta.
  destruct (get (url a) (PyStr EmptyString)) as [|s] eqn:Hu; [by left|].
  destruct (truthy _) eqn:Ht; [|by left]. simpl.
  case_bool_decide as Hin; simpl; [right; by left|right; by right].
Qed.

Lemma accumulate_concat (fetched : list (list article)) :
  accumulate fetched = foldl visit ([], ∅) (concat fetched).
Proof.
  unfold accumulate. generalize (([], ∅) : list article * gset string).
  induction fetched as [|arts fetched IH]; intros st; simpl; [done|].
  by rewrite foldl_app, IH.
Qed.

(** X1: the grouping of the fetched articles by query is immaterial: only their
    order counts, and a query that returns nothing changes nothing. *)
Theorem aggregate_ignores_grouping (fetched : list (list article)) :
  accumulate fetched = accumulate [concat fetched] /\
  aggregate fetched = aggregate [concat fetched] /\
  (forall before after, aggregate (before ++ [] :: after) = aggregate (before ++ after)).
Proof.
  assert (forall f, aggregate f = top6 (foldl visit ([], ∅) (concat f)).1) as Hagg.
  { intros f. unfold aggregate. by rewrite accumulate_concat. }
  split_and!.
  - rewrite !accumulate_concat. simpl. by rewrite app_nil_r.
  - rewrite !Hagg. simpl. by rewrite app_nil_r.
  - intros before after. rewrite !Hagg. by rewrite !concat_app.
Qed.

Lemma filter_none {A : Type} (P : A -> Prop) `{forall x, Decision (P x)} (l : list A) :
  Forall (fun x => ~ P x) l -> filter P l = [].
Proof. induction 1; [done|]. by rewrite filter_cons_False. Qed.

Lemma head_app_some {A : Type} (l k : list A) (x : A) :
  head l = Some x -> head (l ++ k) = Some x.
Proof. by destruct l. Qed.

Lemma visit_first_kept (st : list article * gset string) (seen : list article) (x : article) :
  first_kept st seen -> first_kept (visit st x) (seen ++ [x]).
Proof.
  intros (Ha & Hb & Hc).
  destruct (visit_spec st x) as [[Ht ->]|[(Ht & Hin & ->)|(Ht & Hnew & ->)]].
  - split_and!; [| |done].
    + intros a Hin. rewrite filter_app. by apply head_app_some, Ha.
    + intros b [Hb'|Hx%list_elem_of_singleton]%elem_of_app Hne; [by apply Hb|].
      subst b. apply truthy_url_text in Hne. congruence.
  - split_and!; [| |done].
    + intros a Ha'. rewrite filter_app. by apply head_app_some, Ha.
    + intros b [Hb'|Hx%list_elem_of_singleton]%elem_of_app Hne; [by apply Hb|by subst b].
  - unfold first_kept. cbn [fst snd]. split_and!.
    + intros a [Hin|Hx%list_elem_of_singleton]%elem_of_app.
      * rewrite filter_app. by apply head_app_some, Ha.
      * subst a. rewrite filter_app.
        assert (filter (fun b => url_text b = url_text x) seen = []) as ->.
        { apply filter_none, Forall_forall. intros b Hb' Heq.
          apply Hnew. rewrite <- Heq. apply Hb; [done|].
          rewrite Heq. by apply truthy_url_text. }
        rewrite filter_cons. by destruct (decide _).
    + intros b [Hb'|Hx%list_elem_of_singleton]%elem_of_app Hne.
      * apply elem_of_union_r. by apply Hb.
      * subst b. by apply elem_of_union_l, elem_of_singleton.
    + intros u [Hx%elem_of_singleton|Hu]%elem_of_union.
      * subst u. exists x. split; [|done]. apply elem_of_app. right. by apply list_elem_of_singleton.
      * destruct (Hc u Hu) as (a & Hin & Heq). exists a. split; [|done].
        apply elem_of_app. by left.
Qed.

Lemma foldl_visit_first_kept (l seen : list article) (st : list article * gset string) :
  first_kept st seen -> first_kept (foldl visit st l) (seen ++ l).
Proof.
  revert seen st. induction l as [|x l IH]; intros seen st H; simpl.
  - by rewrite app_nil_r.
  - replace (seen ++ x :: l) with ((seen ++ [x]) ++ l) by (by rewrite <- app_assoc).
    by apply IH, visit_first_kept.
Qed.

(** X2: of the articles fetched under one non-empty URL the loop keeps the one
    fetched first, and it keeps one for every non-empty URL fetched. *)
Theorem accumulate_keeps_first_copy (fetched : list (list article)) :
  (forall a, a ∈ (accumulate fetched).1 ->
     head (filter (fun b => url_text b = url_text a) (concat fetched)) = Some a) /\
  (forall b, b ∈ concat fetched -> url_text b <> EmptyString ->
     exists a, a ∈ (accumulate fetched).1 /\ url_text a = url_text b).
Proof.
  assert (first_kept (accumulate fetched) (concat fetched)) as (Ha & Hb & Hc).
  { rewrite accumulate_concat. apply (foldl_visit_first_kept _ []).
    split_and!; simpl.
    - intros a Hin. by apply elem_of_nil in Hin.
    - intros b Hin. by apply elem_of_nil in Hin.
    - intros u Hu. by apply elem_of_empty in Hu. }
  split; [done|]. intros b Hin Hne. by apply Hc, Hb.
Qed.

Lemma sort_desc_sorted (l r : list article) :
  sort_desc l = Ok r -> StronglySorted key_ge r.
Proof.
  revert r. induction l as [|x l IH]; intros r; simpl.
  - intros [= <-]. constructor.
  - destruct (sort_desc l) as [r'|]; [|done]. intros Hr.
    eapply insert_desc_sorted; [|exact Hr]. by apply IH.
Qed.

(** X3: cutting to six keeps the newest: the output is the whole accumulated
    list when that has at most six articles, and no article left out has a
    later timestamp than an article kept. *)
Theorem aggregate_keeps_newest (fetched : list (list article)) (out : list article) :
  aggregate fetched = Ok out ->
  length out = Nat.min 6 (length (accumulate fetched).1) /\
  (forall a, a ∈ out -> a ∈ (accumulate fetched).1) /\
  (forall a b, a ∈ out -> b ∈ (accumulate fetched).1 -> b ∉ out ->
     String.leb (key_text b) (key_text a) = true).
Proof.
  unfold aggregate, top6. destruct (sort_desc _) as [r|] eqn:Hr; [|done].
  intros [= <-]. pose proof (sort_desc_perm _ _ Hr) as Hp.
  pose proof (sort_desc_sorted _ _ Hr) as Hs. split_and!.
  - by rewrite length_take, Hp.
  - intros a Ha. rewrite <- Hp. by eapply elem_of_sublist, sublist_take.
  - intros a b Ha Hb Hnot. rewrite <- Hp, <- (take_drop 6 r) in Hb.
    apply elem_of_app in Hb as [Hb|Hb]; [done|].
    rewrite <- (take_drop 6 r) in Hs.
    apply (StronglySorted_app_1_elem_of key_ge _ _ a b Hs Ha Hb).
Qed.

Lemma sort_desc_short (l : list article) :
  (length l <= 1)%nat -> sort_desc l = Ok l.
Proof. destruct l as [|x [|y l]]; simpl; [done|done|lia]. Qed.

(** X4: a [null] timestamp makes the aggregator raise [TypeError] as soon as
    two articles are accumulated; a lone accumulated article passes
    whatever its timestamp, and so do articles whose timestamps are
    strings or missing. *)
Theorem aggregate_raises_on_null_timestamp (fetched : list (list article)) :
  ((2 <= length (accumulate fetched).1)%nat ->
   Exists (fun a => publishedAt a = Some PyNone) (accumulate fetched).1 ->
   aggregate fetched = Raise TypeError) /\
  ((length (accumulate fetched).1 <= 1)%nat \/
   Forall timestamp_is_text (accumulate fetched).1 ->
   exists out, aggregate fetched = Ok out).
Proof.
  unfold aggregate, top6. split.
  - intros Hlen Hex. rewrite sort_desc_raises; [done|done|].
    eapply Exists_impl; [exact Hex|]. intros a Ha. unfold sort_key. by rewrite Ha.
  - intros [Hlen|Hall].
    + rewrite sort_desc_short by done. by eexists.
    + destruct (sort_desc_ok _ Hall) as (r & -> & _). by eexists.
Qed.

Lemma sort_desc_of_sorted (l : list article) :
  Forall (fun a => sort_key a <> PyNone) l -> StronglySorted key_ge l -> sort_desc l = Ok l.
Proof.
  intros Hk Hs. induction Hs as [|x l Hs IH Hx]; [done|].
  apply Forall_cons in Hk as [Hkx Hk]. simpl. rewrite (IH Hk).
  destruct l as [|y l]; [done|]. simpl.
  apply Forall_cons in Hx as [Hxy _]. apply Forall_cons in Hk as [Hky _].
  destruct (sort_key x) as [|s] eqn:Ex; [done|]. destruct (sort_key y) as [|t] eqn:Ey; [done|].
  simpl. unfold key_ge, key_text in Hxy. rewrite Ex, Ey in Hxy. simpl in Hxy.
  apply ltb_false_leb in Hxy. by rewrite Hxy.
Qed.

Lemma foldl_visit_fresh (l : list article) (st : list article * gset string) :
  NoDup (url_text <$> l) ->
  (forall a, a ∈ l -> url_text a <> EmptyString /\ url_text a ∉ st.2) ->
  (foldl visit st l).1 = st.1 ++ l.
Proof.
  revert st. induction l as [|x l IH]; intros st Hnd Hall; simpl.
  - by rewrite app_nil_r.
  - apply NoDup_cons in Hnd as [Hx Hnd].
    destruct (Hall x) as [Hne Hnew]; [apply list_elem_of_here|].
    destruct (visit_spec st x) as [[Ht _]|[(_ & Hin & _)|(_ & _ & ->)]].
    + apply truthy_url_text in Hne. congruence.
    + done.
    + rewrite IH; [cbn [fst]; by rewrite <- app_assoc|done|]. cbn [fst snd].
      intros a Ha. destruct (Hall a) as [Hane Hanew]; [by apply list_elem_of_further|].
      split; [done|]. intros [Heq%elem_of_singleton|Hin]%elem_of_union; [|done].
      apply Hx. rewrite <- Heq. by apply list_elem_of_fmap_2.
Qed.

(** X5: the aggregator's output is a fixed point: given back as the result of a
    single query it comes out unchanged. *)
Theorem aggregate_idempotent (fetched : list (list article)) (out : list article) :
  aggregate fetched = Ok out -> aggregate [out] = Ok out.
Proof.
  intros Hagg. pose proof Hagg as Hagg'. unfold aggregate, top6 in Hagg'.
  destruct (sort_desc _) as [r|] eqn:Hr; [|done]. apply Ok_inj in Hagg' as Hout.
  pose proof (sort_desc_perm _ _ Hr) as Hp.
  pose proof (sort_desc_sorted _ _ Hr) as Hs.
  destruct (accumulate_inv fetched) as [Hnd Hurl].
  assert (out `sublist_of` r) as Hsub by (rewrite <- Hout; apply sublist_take).
  assert (NoDup (url_text <$> out)) as Hnd_out.
  { rewrite <- Hout, fmap_take. eapply sublist_NoDup; [|apply sublist_take]. by rewrite Hp. }
  assert ((accumulate [out]).1 = out) as Hacc.
  { rewrite accumulate_concat. simpl. rewrite app_nil_r.
    rewrite foldl_visit_fresh; [done|done|]. intros a Ha. split; [|set_solver].
    apply truthy_url_text, Hurl. rewrite <- Hp. by eapply elem_of_sublist. }
  unfold aggregate, top6. rewrite Hacc.
  assert (StronglySorted key_ge out) as Hs_out.
  { rewrite <- Hout. rewrite <- (take_drop 6 r) in Hs. by apply StronglySorted_app_1_l in Hs. }
  assert (sort_desc out = Ok out) as ->.
  { destruct (decide (length out <= 1)%nat) as [Hshort|Hlong].
    - by apply sort_desc_short.
    - apply sort_desc_of_sorted; [|done].
      assert (2 <= length (accumulate fetched).1)%nat as Hlen.
      { rewrite <- Hp. apply sublist_length in Hsub. lia. }
      pose proof (sort_desc_keys _ _ Hr Hlen) as Hk.
      rewrite Forall_forall in Hk |- *. intros a Ha. apply Hk.
      rewrite <- Hp. by eapply elem_of_sublist. }
  f_equal. apply take_ge. rewrite <- Hout, length_take. lia.
Qed.

(** * Further properties of the effects *)

Lemma bind_raise {A B : Type} (m : M A) (f : A -> M B) (w w' : world) (e : exn) :
  m w = (Raise e, w') -> (m ≫= f) w = (Raise e, w').
Proof. intros H. unfold mbind, M_bind. by rewrite H. Qed.

Lemma fetch_news_frame server (query api_key : string) (page_size : Z) (w : world) :
  exists arts w',
    fetch_news server query api_key page_size w = (Ok arts, w') /\
    requests w' = requests w ++ [Request query page_size api_key] /\
    output_file w' = output_file w /\ clock_reads w' = clock_reads w /\
    (no_articles (server (length (requests w)) (Request query page_size api_key)) -> arts = []).
Proof.
  unfold fetch_news, mbind, M_bind, urlopen_json.
  destruct (server _ _) as [k msg|[[[|a arts]|]|ty]]; cbn; do 2 eexists; split_and!; done.
Qed.

Lemma fetch_queries_frame server (qs : list string) (api_key : string)
    (st : list article * gset string) (w : world) :
  exists st' w',
    fetch_queries server qs api_key st w = (Ok st', w') /\
    requests w' = requests w ++ query_requests qs api_key /\
    output_file w' = output_file w /\ clock_reads w' = clock_reads w /\
    ((forall n r, no_articles (server n r)) -> st' = st).
Proof.
  revert st w. induction qs as [|q qs IH]; intros st w; simpl.
  - exists st, w. by rewrite app_nil_r.
  - destruct (fetch_news_frame server q api_key 4 w) as (arts & w1 & Hf & Hr1 & Ho1 & Hc1 & Hn1).
    rewrite (bind_ok _ _ _ _ _ Hf).
    destruct (IH (foldl visit st arts) w1) as (st' & w2 & Hq & Hr2 & Ho2 & Hc2 & Hn2).
    exists st', w2. split_and!; [done| |congruence|congruence|].
    + rewrite Hr2, Hr1, <- app_assoc. done.
    + intros Hno. rewrite (Hn2 Hno), (Hn1 (Hno _ _)). done.
Qed.


Lemma fetch_category_news_frame server (qs : list string) (api_key : string) (w : world) :
  exists r w',
    fetch_category_news server qs api_key w = (r, w') /\
    requests w' = requests w ++ query_requests qs api_key /\
    output_file w' = output_file w /\ clock_reads w' = clock_reads w /\
    ((forall n r, no_articles (server n r)) -> r = Ok []).
Proof.
  destruct (fetch_queries_frame server qs api_key ([], ∅) w) as (st & w' & Hq & Hr & Ho & Hc & Hn).
  unfold fetch_category_news. rewrite (bind_ok _ _ _ _ _ Hq). unfold lift.
  do 2 eexists. split_and!; try done. intros Hno. by rewrite (Hn Hno).
Qed.

Lemma dict_set_empty (d : list (string * list article)) (k : string) :
  Forall (fun kv => kv.2 = []) d -> Forall (fun kv => kv.2 = []) (dict_set d k []).
Proof.
  induction 1 as [|[k' v'] d Hkv Hd IH]; simpl.
  - by repeat constructor.
  - destruct (String.eqb k' k); by constructor.
Qed.

Lemma fetch_categories_frame server (cats : list (string * list string)) (api_key : string)
    (news : list (string * list article)) (w : world) :
  exists r w',
    fetch_categories server cats api_key news w = (r, w') /\
    output_file w' = output_file w /\ clock_reads w' = clock_reads w /\
    (forall news', r = Ok news' -> requests w' = requests w ++ all_requests cats api_key) /\
    ((forall n r, no_articles (server n r)) -> Forall (fun kv => kv.2 = []) news ->
     exists news', r = Ok news' /\ Forall (fun kv => kv.2 = []) news').
Proof.
  revert news w. induction cats as [|[cat qs] cats IH]; intros news w; simpl.
  - exists (Ok news), w. split_and!; try done.
    + intros news' _. unfold all_requests. simpl. by rewrite app_nil_r.
    + intros _ Hall. by exists news.
  - rewrite (bind_ok _ _ _ _ _ (print_ok _ w)).
    edestruct (fetch_category_news_frame server qs api_key) as (r1 & w1 & Hf & Hr1 & Ho1 & Hc1 & Hn1).
    destruct r1 as [arts|e].
    + rewrite (bind_ok _ _ _ _ _ Hf).
      destruct (IH (dict_set news cat arts) w1) as (r & w2 & Hrest & Ho2 & Hc2 & Hr2 & Hn2).
      exists r, w2. split_and!; [done|by rewrite Ho2, Ho1|by rewrite Hc2, Hc1| |].
      * intros news' Hok. rewrite (Hr2 news' Hok), Hr1. unfold all_requests. simpl.
        by rewrite <- app_assoc.
      * intros Hno Hall. apply Hn2; [done|].
        specialize (Hn1 Hno). apply Ok_inj in Hn1 as ->. by apply dict_set_empty.
    + rewrite (bind_raise _ _ _ _ _ Hf). exists (Raise e), w1.
      split_and!; [done|done|done|done|]. intros Hno _. by specialize (Hn1 Hno).
Qed.

Lemma format_date_frame parse clock (v : pyval) (w : world) :
  exists label w', format_date parse clock v w = (Ok label, w') /\ same_io w w'.
Proof.
  unfold format_date. destruct v as [|s]; [by do 2 eexists|].
  destruct (parse _); by do 2 eexists.
Qed.

Lemma same_io_trans (w1 w2 w3 : world) : same_io w1 w2 -> same_io w2 w3 -> same_io w1 w3.
Proof. intros (?&?&?) (?&?&?). split_and!; congruence. Qed.

Lemma generate_story_html_frame parse clock (a : article) (featured : bool) (w : world) :
  exists r w', generate_story_html parse clock a featured w = (r, w') /\ same_io w w'.
Proof.
  unfold generate_story_html, lift, mbind, M_bind.
  destruct (story_title a); [|by do 2 eexists].
  destruct (story_url a); [|by do 2 eexists].
  destruct (story_source a); [|by do 2 eexists].
  destruct (format_date_frame parse clock (get (publishedAt a) (PyStr EmptyString)) w)
    as (label & w1 & -> & Hio).
  destruct (story_excerpt a); by do 2 eexists.
Qed.

Lemma render_cards_frame parse clock (i : nat) (arts : list article) (w : world) :
  exists r w', render_cards parse clock i arts w = (r, w') /\ same_io w w'.
Proof.
  revert i w. induction arts as [|a arts IH]; intros i w; simpl.
  - by do 2 eexists.
  - destruct (generate_story_html_frame parse clock a (Nat.eqb i 0) w) as ([c|e] & w1 & Hc & Hio).
    + rewrite (bind_ok _ _ _ _ _ Hc).
      destruct (IH (S i) w1) as ([cs|e] & w2 & Hcs & Hio2).
      * rewrite (bind_ok _ _ _ _ _ Hcs). do 2 eexists. split; [done|]. by eapply same_io_trans.
      * rewrite (bind_raise _ _ _ _ _ Hcs). do 2 eexists. split; [done|]. by eapply same_io_trans.
    + rewrite (bind_raise _ _ _ _ _ Hc). by do 2 eexists.
Qed.

Lemma render_sections_frame parse clock (news : list (string * list article))
    (acc : string) (w : world) :
  exists r w', render_sections parse clock news acc w = (r, w') /\ same_io w w'.
Proof.
  revert acc w. induction news as [|[cat arts] news IH]; intros acc w.
  - by do 2 eexists.
  - cbn [render_sections]. destruct arts as [|a arts]; [apply IH|].
    destruct (render_cards_frame parse clock 0 (a :: arts) w) as ([cards|e] & w1 & Hc & Hio).
    + rewrite (bind_ok _ _ _ _ _ Hc).
      edestruct IH as (r & w2 & -> & Hio2). do 2 eexists. split; [done|].
      by eapply same_io_trans.
    + rewrite (bind_raise _ _ _ _ _ Hc). by do 2 eexists.
Qed.

Lemma generate_html_frame parse clock (news : list (string * list article)) (w : world) :
  exists r w', generate_html parse clock news w = (r, w') /\ same_io w w'.
Proof.
  unfold generate_html.
  rewrite (bind_ok _ _ _ _ _ (datetime_now_ok clock None w)). cbv zeta.
  edestruct (render_sections_frame parse clock news EmptyString) as ([s|e] & w1 & Hs & Hio).
  - rewrite (bind_ok _ _ _ _ _ Hs). do 2 eexists. split; [done|]. exact Hio.
  - rewrite (bind_raise _ _ _ _ _ Hs). do 2 eexists. split; [done|]. exact Hio.
Qed.

Lemma write_file_ok (content : string) (w : world) :
  write_file content w
  = (Ok tt, World (stdout w) (requests w) (Some content) (clock_reads w)).
Proof. done. Qed.

Lemma main_without_key server parse clock (dir : string) (key_file environ_key : option string)
    (w : world) :
  truthy (PyStr (get_api_key key_file environ_key)) = false ->
  main server parse clock dir key_file environ_key w
  = (Ok 1,
     World (stdout w ++ ["Error: No API key found.";
                         "Create a file at: " +:+ API_KEY_FILE dir;
                         "Or set NEWSAPI_KEY environment variable.";
                         "Get a free key at: https://newsapi.org/register"])
           (requests w) (output_file w) (clock_reads w)).
Proof.
  intros Hk. unfold main. rewrite Hk. cbn [negb].
  rewrite !(bind_ok _ _ _ _ _ (print_ok _ _)).
  cbn [stdout requests output_file clock_reads]. unfold mret, M_ret.
  by rewrite <- !app_assoc.
Qed.

(** X7: a run ends in one of three ways: status 1 with no request and the file
    untouched; status 0 with every configured request sent, in order, and
    the file written; or an exception with the file untouched. *)
Theorem main_outcomes server parse clock (dir : string) (key_file environ_key : option string)
    (w : world) :
  let key := get_api_key key_file environ_key in
  let run := main server parse clock dir key_file environ_key w in
  (run.1 = Ok 1 /\ key = EmptyString /\
   requests run.2 = requests w /\ output_file run.2 = output_file w) \/
  (run.1 = Ok 0 /\ key <> EmptyString /\
   requests run.2 = requests w ++ all_requests CATEGORIES key /\
   exists html, output_file run.2 = Some html) \/
  (exists e, run.1 = Raise e /\ key <> EmptyString /\ output_file run.2 = output_file w).
Proof.
  cbv zeta. destruct (truthy (PyStr (get_api_key key_file environ_key))) eqn:Hk.
  - assert (get_api_key key_file environ_key <> EmptyString) as Hne.
    { intros Heq. by rewrite Heq in Hk. }
    right. unfold main. rewrite Hk. cbn [negb].
    rewrite (bind_ok _ _ _ _ _ (datetime_now_ok clock None w)).
    rewrite (bind_ok _ _ _ _ _ (print_ok _ _)).
    edestruct (fetch_categories_frame server CATEGORIES (get_api_key key_file environ_key) [])
      as (r1 & w1 & Hf & Ho1 & Hc1 & Hr1 & _).
    destruct r1 as [news|e].
    + rewrite (bind_ok _ _ _ _ _ Hf), (bind_ok _ _ _ _ _ (print_ok _ _)).
      edestruct (generate_html_frame parse clock news) as (r2 & w2 & Hg & Hio).
      destruct Hio as (_ & Hreq & Hout). destruct r2 as [html|e].
      * left. rewrite (bind_ok _ _ _ _ _ Hg). specialize (Hr1 news eq_refl).
        rewrite (bind_ok _ _ _ _ _ (write_file_ok _ _)), (bind_ok _ _ _ _ _ (print_ok _ _)).
        unfold mret, M_ret. cbn [stdout requests output_file clock_reads fst snd] in *.
        split_and!; [done|done| |by eexists]. by rewrite Hreq, Hr1.
      * right. exists e. rewrite (bind_raise _ _ _ _ _ Hg).
        cbn [stdout requests output_file clock_reads fst snd] in *.
        split_and!; [done|done|]. by rewrite Hout, Ho1.
    + right. exists e. rewrite (bind_raise _ _ _ _ _ Hf).
      cbn [stdout requests output_file clock_reads fst snd] in *.
      split_and!; [done|done|]. by rewrite Ho1.
  - left. rewrite (main_without_key _ _ _ _ _ _ _ Hk).
    cbn [stdout requests output_file clock_reads fst snd]. split_and!; try done.
    simpl in Hk. apply negb_false_iff in Hk. by apply String.eqb_eq in Hk.
Qed.


(** * Further properties of the renderer and the credential *)

(** X8: a card is rendered unless the URL, the source or the source name is
    [null], and then [AttributeError] is raised before the clock is read;
    a [null] title or description never raises. *)
Theorem generate_story_html_raises_on_null parse clock (a : article) (featured : bool)
    (w : world) :
  (url a <> Some PyNone -> source a <> SrcNull -> source a <> SrcObj (Some PyNone) ->
   exists c w', generate_story_html parse clock a featured w = (Ok c, w')) /\
  (url a = Some PyNone \/ source a = SrcNull \/ source a = SrcObj (Some PyNone) ->
   generate_story_html parse clock a featured w = (Raise AttributeError, w)).
Proof.
  split.
  - intros Hu Hs1 Hs2. by apply generate_story_html_ok.
  - intros Hbad. unfold generate_story_html, lift, mbind, M_bind.
    rewrite story_title_unfold. unfold story_url, story_source.
    destruct (url a) as [[|u]|] eqn:Hu; [done| |].
    + destruct Hbad as [?|[->| ->]]; done.
    + destruct Hbad as [?|[->| ->]]; done.
Qed.

Lemma render_sections_skip parse clock (before after : list (string * list article))
    (category acc : string) (w : world) :
  render_sections parse clock (before ++ (category, []) :: after) acc w
  = render_sections parse clock (before ++ after) acc w.
Proof.
  revert acc w. induction before as [|[cat arts] before IH]; intros acc w; [done|].
  cbn [app render_sections]. destruct arts as [|a arts]; [apply IH|].
  unfold mbind, M_bind. destruct (render_cards _ _ _ _ _) as [[cards|e] w1]; [apply IH|done].
Qed.

(** X9: a category without articles leaves no trace in the page: the page is
    the one rendered without it. *)
Theorem generate_html_skips_empty parse clock (before after : list (string * list article))
    (category : string) (w : world) :
  generate_html parse clock (before ++ (category, []) :: after) w
  = generate_html parse clock (before ++ after) w.
Proof.
  unfold generate_html.
  rewrite !(bind_ok _ _ _ _ _ (datetime_now_ok clock None w)). cbv zeta.
  unfold mbind, M_bind. by rewrite render_sections_skip.
Qed.




Lemma lstrip_all_space (s : string) : all_chars is_space s = true -> lstrip s = EmptyString.
Proof.
  induction s as [|c s IH]; [done|]. simpl. intros [Hc Hs]%andb_true_iff.
  rewrite Hc. by apply IH.
Qed.

(** X11: a key file that holds only whitespace gives an empty credential even
    when the environment variable is set: the run exits with status 1 and
    sends no request. *)
Theorem blank_key_file_masks_environment server parse clock (dir content : string)
    (environ_key : option string) (w : world) :
  all_chars is_space content = true ->
  get_api_key (Some content) environ_key = EmptyString /\
  (main server parse clock dir (Some content) environ_key w).1 = Ok 1 /\
  requests (main server parse clock dir (Some content) environ_key w).2 = requests w.
Proof.
  intros Hsp.
  assert (get_api_key (Some content) environ_key = EmptyString) as Hkey.
  { unfold get_api_key, strip. by rewrite (lstrip_all_space _ Hsp). }
  split; [done|]. rewrite main_without_key; [done|]. by rewrite Hkey.
Qed.

(** X12: for a timestamp not later than the render time the label is one of
    [Just now], [<N>h ago] with N from 1 to 23, [Yesterday], [<N> days ago]
    with N from 2 to 6, or the month and day of a timestamp at least seven
    days old. *)
Theorem format_date_label_range parse clock (s : string) (dt : datetime) (w : world) :
  parse (replace_Z s) = Some dt ->
  0 <= civil_us (clock (clock_reads w) (tzinfo dt)) - civil_us (fields dt) ->
  let age := civil_us (clock (clock_reads w) (tzinfo dt)) - civil_us (fields dt) in
  let label := (format_date parse clock (PyStr s) w).1 in
  (age < us_per_hour /\ label = Ok "Just now") \/
  (exists n, 1 <= n <= 23 /\ label = Ok (str_of_int n +:+ "h ago")) \/
  (us_per_day <= age < 2 * us_per_day /\ label = Ok "Yesterday") \/
  (exists n, 2 <= n <= 6 /\ label = Ok (str_of_int n +:+ " days ago")) \/
  (7 * us_per_day <= age /\ label = Ok (strftime_b_d (fields dt))).
Proof.
  intros Hp Hage. cbv zeta. rewrite (format_date_parsed _ _ _ _ _ Hp). cbn [fst].
  unfold datetime_sub. rewrite relative_label_elapsed by done.
  generalize dependent (civil_us (clock (clock_reads w) (tzinfo dt)) - civil_us (fields dt)).
  intros age Hage. unfold elapsed_label, us_per_hour, us_per_day.
  destruct (Z.ltb_spec age 3600000000); [by left|].
  destruct (Z.ltb_spec age 86400000000).
  { right; left. exists (age / 3600000000). split; [|done].
    split; [apply Z.div_le_lower_bound; lia|].
    apply Z.lt_succ_r, Z.div_lt_upper_bound; lia. }
  destruct (Z.ltb_spec age (2 * 86400000000)); [right; right; by left|].
  destruct (Z.ltb_spec age (7 * 86400000000)).
  { right; right; right; left. exists (age / 86400000000). split; [|done].
    split; [apply Z.div_le_lower_bound; lia|].
    apply Z.lt_succ_r, Z.div_lt_upper_bound; lia. }
  right; right; right; right. done.
Qed.

Lemma length_take_str (n : nat) (s : string) :
  String.length (take_str n s) = Nat.min n (String.length s).
Proof.
  revert s. induction n as [|n IH]; intros [|c s]; simpl; try done. by rewrite IH.
Qed.

Lemma length_app_str (s t : string) :
  String.length (s +:+ t) = (String.length s + String.length t)%nat.
Proof. induction s as [|c s IH]; app_norm; simpl; [done|]. by rewrite IH. Qed.

(** X14: the excerpt never raises and is never longer than 150 characters. *)
Theorem story_excerpt_bounded (a : article) :
  exists d, story_excerpt a = Ok d /\ (String.length d <= 150)%nat.
Proof.
  rewrite story_excerpt_unfold. eexists. split; [done|].
  destruct (Z.ltb_spec 150 (Z.of_nat (String.length (escape_str (raw_description a))))).
  - rewrite length_app_str, length_take_str.
    change (String.length "...") with 3%nat. lia.
  - lia.
Qed.

(** ** Concrete runs of the further properties *)

Lemma accumulate_keeps_first_copy_witness :
  sample_article "https://example.com/1" "2024-03-09T08:00:00Z" ∈ (accumulate sample_fetched).1 /\
  head (filter (fun b => url_text b = "https://example.com/1") (concat sample_fetched))
    = Some (sample_article "https://example.com/1" "2024-03-09T08:00:00Z").
Proof.
  assert (sample_article "https://example.com/1" "2024-03-09T08:00:00Z"
            ∈ (accumulate sample_fetched).1) as Hin.
  { vm_compute. apply list_elem_of_here. }
  split; [exact Hin|].
  exact (proj1 (accumulate_keeps_first_copy sample_fetched) _ Hin).
Defined.

Lemma aggregate_keeps_newest_witness :
  exists out,
    aggregate seven_fetched = Ok out /\
    length out = Nat.min 6 (length (accumulate seven_fetched).1).
Proof.
  destruct (aggregate seven_fetched) as [out|e] eqn:Hagg; [|vm_compute in Hagg; discriminate].
  exists out. split; [reflexivity|].
  exact (proj1 (aggregate_keeps_newest seven_fetched out Hagg)).
Defined.

Lemma aggregate_raises_on_null_timestamp_witness :
  (2 <= length (accumulate null_stamp_fetched).1)%nat /\
  Exists (fun a => publishedAt a = Some PyNone) (accumulate null_stamp_fetched).1 /\
  aggregate null_stamp_fetched = Raise TypeError.
Proof.
  assert (2 <= length (accumulate null_stamp_fetched).1)%nat as Hlen.
  { vm_compute. lia. }
  assert (Exists (fun a => publishedAt a = Some PyNone) (accumulate null_stamp_fetched).1)
    as Hex.
  { vm_compute. apply Exists_cons_tl, Exists_cons_hd. reflexivity. }
  split; [exact Hlen|]. split; [exact Hex|].
  exact (proj1 (aggregate_raises_on_null_timestamp null_stamp_fetched) Hlen Hex).
Defined.

Lemma aggregate_idempotent_witness :
  exists out, aggregate seven_fetched = Ok out /\ aggregate [out] = Ok out.
Proof.
  destruct (aggregate seven_fetched) as [out|e] eqn:Hagg; [|vm_compute in Hagg; discriminate].
  exists out. split; [reflexivity|].
  exact (aggregate_idempotent seven_fetched out Hagg).
Defined.

Lemma generate_story_html_raises_on_null_witness :
  source null_source_article = SrcNull /\
  generate_story_html fromisoformat_seconds noon_clock null_source_article true world0
    = (Raise AttributeError, world0).
Proof.
  split; [reflexivity|].
  exact (proj2 (generate_story_html_raises_on_null fromisoformat_seconds noon_clock
                  null_source_article true world0)
           (or_intror (or_introl eq_refl))).
Defined.


Lemma blank_key_file_masks_environment_witness :
  all_chars is_space (" " +:+ nl) = true /\
  get_api_key (Some (" " +:+ nl)) (Some "k3y") = EmptyString /\
  (main sample_server fromisoformat_seconds noon_clock "/srv/techpulse"
        (Some (" " +:+ nl)) (Some "k3y") world0).1 = Ok 1.
Proof.
  split; [reflexivity|].
  destruct (blank_key_file_masks_environment sample_server fromisoformat_seconds noon_clock
              "/srv/techpulse" (" " +:+ nl) (Some "k3y") world0 eq_refl) as (H1 & H2 & _).
  split; assumption.
Defined.

Lemma format_date_label_range_witness :
  fromisoformat_seconds (replace_Z "2024-03-10T08:30:00Z")
    = Some (Datetime (Civil 2024 3 10 8 30 0 0) (Some 0)) /\
  ((civil_us (noon_clock 0%nat (Some 0)) - civil_us (Civil 2024 3 10 8 30 0 0) < us_per_hour /\
    (format_date fromisoformat_seconds noon_clock (PyStr "2024-03-10T08:30:00Z") world0).1
      = Ok "Just now") \/
   (exists n, 1 <= n <= 23 /\
      (format_date fromisoformat_seconds noon_clock (PyStr "2024-03-10T08:30:00Z") world0).1
        = Ok (str_of_int n +:+ "h ago")) \/
   (us_per_day <= civil_us (noon_clock 0%nat (Some 0)) - civil_us (Civil 2024 3 10 8 30 0 0)
      < 2 * us_per_day /\
    (format_date fromisoformat_seconds noon_clock (PyStr "2024-03-10T08:30:00Z") world0).1
      = Ok "Yesterday") \/
   (exists n, 2 <= n <= 6 /\
      (format_date fromisoformat_seconds noon_clock (PyStr "2024-03-10T08:30:00Z") world0).1
        = Ok (str_of_int n +:+ " days ago")) \/
   (7 * us_per_day <= civil_us (noon_clock 0%nat (Some 0)) - civil_us (Civil 2024 3 10 8 30 0 0) /\
    (format_date fromisoformat_seconds noon_clock (PyStr "2024-03-10T08:30:00Z") world0).1
      = Ok (strftime_b_d (Civil 2024 3 10 8 30 0 0)))).
Proof.
  split; [reflexivity|].
  exact (format_date_label_range fromisoformat_seconds noon_clock "2024-03-10T08:30:00Z"
           (Datetime (Civil 2024 3 10 8 30 0 0) (Some 0)) world0 eq_refl
           ltac:(vm_compute; discriminate)).
Defined.

Lemma card_fields_no_markup_witness :
  story_url (Article None (Some (PyStr ("x" +:+ dq +:+ " onclick=" +:+ dq +:+ "y"))) SrcAbsent None None)
    = Ok "x&quot; onclick=&quot;y" /\
  all_chars (fun x => negb (is_markup x)) "x&quot; onclick=&quot;y" = true.
Proof.
  split; [reflexivity|].
  exact (card_fields_no_markup
           (Article None (Some (PyStr ("x" +:+ dq +:+ " onclick=" +:+ dq +:+ "y"))) SrcAbsent None None)
           "x&quot; onclick=&quot;y" (or_intror (or_introl eq_refl))).
Defined.
